(** * TPNodejs: the request handlers of [REST API/server.js]

    A shallow embedding of the relational shop service: the zod schemas,
    the statements the handlers send through the [postgres] driver, and
    the handlers themselves, each written after its JavaScript text.

    JavaScript numbers are IEEE 754 binary64 values, so they are
    primitive floats here and arithmetic on them is the one the program
    performs.  What server.js relies on without containing it (the
    ECMAScript conversions from text to number, zod's e-mail pattern,
    the comparison the datastore makes between a column and a bound
    parameter) is gathered in the class [Platform]; every general
    theorem holds for all its instances, and the concrete runs use the
    instance [reference]. *)

From Stdlib Require Import Floats ZArith Uint63 String Ascii List Bool.
Import ListNotations.
Local Open Scope string_scope.
Local Open Scope list_scope.

(** ** Values *)

Set Warnings "-register-all,-inexact-float".

Inductive value : Type :=
| VUndefined
| VNull
| VBool (b : bool)
| VNum (x : float)
| VStr (s : string)
| VArr (items : list value)
| VObj (fields : list (string * value)).

(** An object is its list of own properties, in insertion order. *)
Definition object := list (string * value).

Fixpoint lookup (k : string) (o : object) : value :=
  match o with
  | [] => VUndefined
  | (k', v) :: o' => if String.eqb k k' then v else lookup k o'
  end.

Fixpoint has_key (k : string) (o : object) : bool :=
  match o with
  | [] => false
  | (k', _) :: o' => String.eqb k k' || has_key k o'
  end.

(** [acc[key] = v]: overwrite in place, or add at the end. *)
Fixpoint assign (k : string) (v : value) (o : object) : object :=
  match o with
  | [] => [(k, v)]
  | (k', v') :: o' =>
      if String.eqb k k' then (k, v) :: o' else (k', v') :: assign k v o'
  end.

Definition object_keys (o : object) : list string := map fst o.

Definition is_undefined (v : value) : bool :=
  match v with VUndefined => true | _ => false end.

(** [const [x] = rows]: the first element, or [undefined]. *)
Definition first (rows : list object) : value :=
  match rows with
  | [] => VUndefined
  | r :: _ => VObj r
  end.

(** ** The platform *)

Class Platform : Type := {
  (** the datastore's [column = $n] on a stored value and a bound one *)
  sql_eq : value -> value -> bool;
  (** ECMAScript [parseFloat] *)
  parseFloat : value -> float;
  (** ECMAScript [ToNumber] on strings, arrays and objects *)
  to_number_text : value -> float;
  (** the pattern behind zod's [.email()] *)
  is_email : string -> bool;
  (** what [bcrypt.hash(data, rounds)] resolves to *)
  bcrypt_hash : value -> nat -> value
}.

(** ** ECMAScript operators used by the handlers *)

Section Operators.
Context {P : Platform}.

Definition truthy (v : value) : bool :=
  match v with
  | VUndefined | VNull => false
  | VBool b => b
  | VNum x => negb (PrimFloat.eqb x 0 || PrimFloat.is_nan x)
  | VStr s => negb (String.eqb s "")
  | VArr _ | VObj _ => true
  end.

Definition to_number (v : value) : float :=
  match v with
  | VUndefined => nan
  | VNull => 0%float
  | VBool b => if b then 1%float else 0%float
  | VNum x => x
  | VStr _ | VArr _ | VObj _ => to_number_text v
  end.

(** [a * b] *)
Definition js_mul (a b : value) : value :=
  VNum (to_number a * to_number b)%float.

(** [a > b]; two strings compare as strings, anything else as numbers. *)
Definition js_gt (a b : value) : bool :=
  match a, b with
  | VStr s, VStr t => String.ltb t s
  | _, _ => PrimFloat.ltb (to_number b) (to_number a)
  end.

End Operators.

(** ** zod schemas *)

Inductive zcheck : Type :=
| Positive                 (* .positive() *)
| Email                    (* .email() *)
| Min (n : nat).           (* .min(n) on a string *)

Inductive ztype : Type :=
| ZString (checks : list zcheck)
| ZNumber (checks : list zcheck)
| ZOptional (inner : ztype).

(** The shape of a [z.object], in declaration order. *)
Definition shape := list (string * ztype).

(** An issue: the key it is about and zod's issue code. *)
Definition issue := (string * string)%type.

Inductive parse_result : Type :=
| Success (data : object)
| Failure (issues : list issue).

(** [schema.omit(mask)]: zod keeps the keys for which [!mask[key]], so
    a key goes only when the mask holds a truthy value for it. *)
Definition omit (mask : list (string * bool)) (s : shape) : shape :=
  filter (fun kt : string * ztype =>
            negb (existsb (fun m : string * bool =>
                             String.eqb (fst kt) (fst m) && snd m) mask)) s.

Section Zod.
Context {P : Platform}.

Definition check_string (s : string) (c : zcheck) : list string :=
  match c with
  | Email => if is_email s then [] else ["invalid_string"]
  | Min n => if Nat.ltb (String.length s) n then ["too_small"] else []
  | Positive => []
  end.

Definition check_number (x : float) (c : zcheck) : list string :=
  match c with
  | Positive => if PrimFloat.leb x 0 then ["too_small"] else []
  | Email | Min _ => []
  end.

(** The issue codes one field raises; none when the value is accepted. *)
Fixpoint parse_value (t : ztype) (v : value) : list string :=
  match t with
  | ZOptional inner =>
      match v with
      | VUndefined => []
      | _ => parse_value inner v
      end
  | ZString checks =>
      match v with
      | VStr s => flat_map (check_string s) checks
      | _ => ["invalid_type"]
      end
  | ZNumber checks =>
      match v with
      | VNum x =>
          if PrimFloat.is_nan x then ["invalid_type"]
          else flat_map (check_number x) checks
      | _ => ["invalid_type"]
      end
  end.

Definition field_issues (input : object) (kt : string * ztype) : list issue :=
  map (fun code => (fst kt, code)) (parse_value (snd kt) (lookup (fst kt) input)).

(** Unknown keys are stripped; a key of the shape is set in the output
    when its value is defined or the key is in the input. *)
Definition field_output (input : object) (kt : string * ztype) : object :=
  let v := lookup (fst kt) input in
  if negb (is_undefined v) || has_key (fst kt) input then [(fst kt, v)] else [].

Definition safeParse (s : shape) (input : value) : parse_result :=
  match input with
  | VObj fields =>
      match flat_map (field_issues fields) s with
      | [] => Success (flat_map (field_output fields) s)
      | issues => Failure issues
      end
  | _ => Failure [("", "invalid_type")]
  end.

End Zod.

(** The schemas of server.js. *)

Definition ProductSchema : shape :=
  [("id", ZString []); ("name", ZString []); ("about", ZString []);
   ("price", ZNumber [Positive])].

Definition CreateProductSchema : shape := omit [("id", true)] ProductSchema.

Definition UserSchema : shape :=
  [("id", ZNumber []); ("name", ZString []); ("email", ZString []);
   ("password", ZString [])].

Definition UpdateUserSchema : shape :=
  [("name", ZOptional (ZString []));
   ("email", ZOptional (ZString [Email]));
   ("password", ZOptional (ZString [Min 5]))].

Definition CreateOrderSchema : shape :=
  [("userId", ZNumber []); ("productId", ZNumber []);
   ("quantity", ZNumber [Positive])].

Definition UpdateOrderSchema : shape :=
  [("userId", ZOptional (ZNumber []));
   ("productId", ZOptional (ZNumber []));
   ("quantity", ZOptional (ZNumber [Positive]))].

Definition CreateUserSchema : shape := omit [("id", true)] UserSchema.

Definition getUsers : shape := omit [("password", false)] UserSchema.

(** ** The datastore

    Three tables of rows; a row is the object the driver hands back for
    it.  [serial] is the next identifier the datastore assigns and [now]
    what [NOW()] evaluates to.  The tables are created outside
    server.js: the rows do not fix the types of their columns nor how
    identifiers are numbered, and one counter serves the three
    tables. *)

Inductive table : Type := Products | Users | Orders.

Record db : Type := {
  products : list object;
  users : list object;
  orders : list object;
  serial : nat;
  now : value
}.

Definition rows_of (t : table) (d : db) : list object :=
  match t with
  | Products => products d
  | Users => users d
  | Orders => orders d
  end.

Definition set_rows (t : table) (rows : list object) (d : db) : db :=
  match t with
  | Products => {| products := rows; users := users d; orders := orders d;
                   serial := serial d; now := now d |}
  | Users => {| products := products d; users := rows; orders := orders d;
                serial := serial d; now := now d |}
  | Orders => {| products := products d; users := users d; orders := rows;
                 serial := serial d; now := now d |}
  end.

Definition bump (d : db) : db :=
  {| products := products d; users := users d; orders := orders d;
     serial := S (serial d); now := now d |}.

(** A count as a number; also the identifier the datastore assigns. *)
Definition number_of_nat (n : nat) : value :=
  VNum (PrimFloat.of_uint63 (Uint63.of_Z (Z.of_nat n))).

(** A value position of a statement: [${v}] or [NOW()]. *)
Inductive sqlexpr : Type :=
| Bound (v : value)
| Now.

(** The statements server.js sends.  A condition [(c, n)] is the text
    [c = $n]; the conditions of a statement are joined by AND. *)
Inductive stmt : Type :=
| Select (columns : option (list string)) (t : table)
         (conditions : list (string * nat)) (values : list value)
| Insert (t : table) (columns : list (string * sqlexpr))
| Update (t : table) (assignments : list (string * value)) (id : value)
| Delete (t : table) (id : value).

Inductive error : Type :=
| ReferenceError (name : string)
| TypeError (message : string)
| PostgresError (code : string)
| ZodError (issues : list issue).

Definition message (e : error) : string :=
  match e with
  | ReferenceError name => name ++ " is not defined"
  | TypeError m => m
  | PostgresError code => code
  | ZodError _ => "Validation error"
  end.

(** [sql(data, ...columns)]: the named columns of [data]; without names,
    its own keys. *)
Definition helper (data : object) (columns : list string) : list (string * value) :=
  match columns with
  | [] => data
  | _ => map (fun c => (c, lookup c data)) columns
  end.

(** PostgreSQL reads a column name that is written without quotes in
    lower case; the names that [sql(data, ...columns)] writes are quoted
    and stay as they are. *)
Definition lower_case (c : ascii) : ascii :=
  let n := nat_of_ascii c in
  if (65 <=? n)%nat && (n <=? 90)%nat then ascii_of_nat (n + 32) else c.

Fixpoint unquoted (name : string) : string :=
  match name with
  | EmptyString => EmptyString
  | String c rest => String (lower_case c) (unquoted rest)
  end.

Definition bound (assignments : list (string * value)) : list (string * sqlexpr) :=
  map (fun a => (fst a, Bound (snd a))) assignments.

Section Datastore.
Context {P : Platform}.

(** [$n] is the n-th bound value, counted from one. *)
Definition resolve_condition (values : list value) (c : string * nat)
  : option (string * value) :=
  match snd c with
  | 0 => None
  | S i => option_map (pair (fst c)) (nth_error values i)
  end.

Fixpoint resolve (conditions : list (string * nat)) (values : list value)
  : option (list (string * value)) :=
  match conditions with
  | [] => Some []
  | c :: cs =>
      match resolve_condition values c, resolve cs values with
      | Some p, Some ps => Some (p :: ps)
      | _, _ => None
      end
  end.

Definition satisfies (row : object) (p : string * value) : bool :=
  sql_eq (lookup (fst p) row) (snd p).

Definition has_id (id : value) (row : object) : bool :=
  sql_eq (lookup "id" row) id.

(** A column the row holds nothing for reads as NULL. *)
Definition column (row : object) (c : string) : string * value :=
  (c, if has_key c row then lookup c row else VNull).

Definition project (columns : option (list string)) (row : object) : object :=
  match columns with
  | None => row
  | Some cs => map (column row) cs
  end.

Definition eval_expr (d : db) (e : string * sqlexpr) : string * value :=
  match snd e with
  | Bound v => (fst e, v)
  | Now => (fst e, now d)
  end.

Definition is_unbound (e : string * sqlexpr) : bool :=
  match snd e with
  | Bound v => is_undefined v
  | Now => false
  end.

Definition apply_assignments (assignments : list (string * value)) (row : object)
  : object :=
  fold_left (fun r a => assign (fst a) (snd a) r) assignments row.

(** What a statement answers and what it leaves in the store.  The
    driver refuses an undefined bound value before anything is sent.
    The errors of a datastore that depend on how its tables were
    created (a column that does not exist, a value of the wrong type or
    out of range, a broken constraint) and a lost connection are not
    among the results: an UPDATE sets a column the row lacks. *)
Definition exec (s : stmt) (d : db) : (error + list object) * db :=
  match s with
  | Select columns t conditions values =>
      if existsb is_undefined values
      then (inl (PostgresError "UNDEFINED_VALUE"), d)
      else match resolve conditions values with
           | None => (inl (PostgresError "42P02"), d)
           | Some ps =>
               (inr (map (project columns)
                         (filter (fun r => forallb (satisfies r) ps) (rows_of t d))),
                d)
           end
  | Insert t columns =>
      if existsb is_unbound columns
      then (inl (PostgresError "UNDEFINED_VALUE"), d)
      else let row := ("id", number_of_nat (serial d)) :: map (eval_expr d) columns in
           (inr [row], bump (set_rows t (rows_of t d ++ [row]) d))
  | Update t assignments id =>
      if existsb is_undefined (id :: map snd assignments)
      then (inl (PostgresError "UNDEFINED_VALUE"), d)
      else match assignments with
           | [] => (inl (PostgresError "42601"), d)
           | _ =>
               let rows := map (fun r => if has_id id r
                                         then apply_assignments assignments r
                                         else r) (rows_of t d) in
               (inr (map (apply_assignments assignments)
                         (filter (has_id id) (rows_of t d))),
                set_rows t rows d)
           end
  | Delete t id =>
      if is_undefined id
      then (inl (PostgresError "UNDEFINED_VALUE"), d)
      else (inr (filter (has_id id) (rows_of t d)),
            set_rows t (filter (fun r => negb (has_id id r)) (rows_of t d)) d)
  end.

End Datastore.

(** ** Handlers as computations

    A handler runs against the store, may send statements, and either
    answers or ends in an exception nothing catches.  [issued] keeps the
    statements handed to the driver, in order. *)

Record world : Type := { store : db; issued : list stmt }.

Definition M (A : Type) : Type := world -> (error + A) * world.

Definition ret {A : Type} (a : A) : M A := fun w => (inr a, w).

Definition throw {A : Type} (e : error) : M A := fun w => (inl e, w).

Definition bind {A B : Type} (m : M A) (k : A -> M B) : M B :=
  fun w =>
    match m w with
    | (inl e, w') => (inl e, w')
    | (inr a, w') => k a w'
    end.

(** [try { m } catch (error) { h }] *)
Definition try_catch {A : Type} (m : M A) (h : error -> M A) : M A :=
  fun w =>
    match m w with
    | (inl e, w') => h e w'
    | (inr a, w') => (inr a, w')
    end.

Declare Scope js_scope.
Delimit Scope js_scope with js.
Notation "x <- m ;; k" := (bind m (fun x => k))
  (at level 61, m at next level, right associativity) : js_scope.
Notation "m ;; k" := (bind m (fun _ => k))
  (at level 61, right associativity) : js_scope.
Local Open Scope js_scope.

Fixpoint map_m {A B : Type} (f : A -> M B) (l : list A) : M (list B) :=
  match l with
  | [] => ret []
  | a :: l' => b <- f a ;; bs <- map_m f l' ;; ret (b :: bs)
  end.

Record response : Type := { status : nat; body_of : value }.

Inductive outcome : Type :=
| Sent (r : response)
| Uncaught (e : error).

(** [res.status(code).json(body)] *)
Definition json (code : nat) (body : value) : M response :=
  ret {| status := code; body_of := body |}.

Definition msg (text : string) : value := VObj [("message", VStr text)].

(** [v.k] and [v[k]]: reading a property of [undefined] or [null]
    throws. *)
Definition member (v : value) (k : string) : M value :=
  match v with
  | VUndefined =>
      throw (TypeError ("Cannot read properties of undefined (reading '" ++ k ++ "')"))
  | VNull =>
      throw (TypeError ("Cannot read properties of null (reading '" ++ k ++ "')"))
  | VObj o => ret (lookup k o)
  | VStr t =>
      ret (if String.eqb k "length" then number_of_nat (String.length t) else VUndefined)
  | VArr items =>
      ret (if String.eqb k "length" then number_of_nat (List.length items) else VUndefined)
  | VBool _ | VNum _ => ret VUndefined
  end.

(** The names server.js binds at module level, and the names Node
    binds for every module. *)
Definition module_bindings : list string :=
  ["express"; "postgres"; "z"; "app"; "port"; "sql"; "swaggerUi";
   "swaggerJsdoc"; "options"; "specs"; "ProductSchema"; "CreateProductSchema";
   "UserSchema"; "UpdateUserSchema"; "CreateOrderSchema"; "UpdateOrderSchema";
   "CreateUserSchema"; "getUsers"].

Definition node_bindings : list string :=
  ["require"; "module"; "exports"; "__filename"; "__dirname"; "globalThis";
   "global"; "console"; "process"; "Buffer"; "setTimeout"; "setInterval";
   "setImmediate"; "clearTimeout"; "clearInterval"; "clearImmediate";
   "queueMicrotask"; "structuredClone"; "fetch"; "URL"; "URLSearchParams";
   "TextEncoder"; "TextDecoder"; "AbortController"; "Object"; "Function";
   "Array"; "Number"; "String"; "Boolean"; "Symbol"; "BigInt"; "Math"; "JSON";
   "Date"; "RegExp"; "Promise"; "Map"; "Set"; "Error"; "TypeError";
   "ReferenceError"; "parseFloat"; "parseInt"; "isNaN"; "isFinite";
   "undefined"; "NaN"; "Infinity"].

(** Evaluating a name that no scope binds throws. *)
Definition identifier (locals : list string) (name : string) : M unit :=
  if existsb (String.eqb name) (locals ++ module_bindings ++ node_bindings)
  then ret tt
  else throw (ReferenceError name).

Record request : Type := {
  params_id : string;      (* req.params.id *)
  query : object;          (* req.query *)
  body : value             (* req.body *)
}.

Section Handlers.
Context {P : Platform}.

(** A tagged template: the statement goes to the driver. *)
Definition sql (s : stmt) : M (list object) :=
  fun w =>
    let (r, d) := exec s (store w) in
    (r, {| store := d; issued := issued w ++ [s] |}).

(** [schema.parse(v)] *)
Definition parse (s : shape) (v : value) : M object :=
  match safeParse s v with
  | Success data => ret data
  | Failure issues => throw (ZodError issues)
  end.

(** [result.error.errors], each issue cut down to its path and its
    code; zod adds a message and the parameters of the check. *)
Definition issues_value (issues : list issue) : value :=
  VArr (map (fun i : issue => VObj [("path", VArr [VStr (fst i)]);
                                    ("code", VStr (snd i))]) issues).

(** app.get("/products") *)
Definition get_products (req : request) : M response :=
  let name := lookup "name" (query req) in
  let about := lookup "about" (query req) in
  let price := lookup "price" (query req) in
  let conditions : list (string * nat) := [] in
  let values : list value := [] in
  let '(conditions, values) :=
    if truthy name
    then (conditions ++ [("name", List.length conditions + 1)], values ++ [name])
    else (conditions, values) in
  let '(conditions, values) :=
    if truthy about
    then (conditions ++ [("about", List.length conditions + 1)], values ++ [about])
    else (conditions, values) in
  let '(conditions, values) :=
    if truthy price
    then (conditions ++ [("price", List.length conditions + 1)],
          values ++ [VNum (parseFloat price)])
    else (conditions, values) in
  try_catch
    (rows <- sql (Select None Products conditions values) ;;
     json 200 (VArr (map VObj rows)))
    (fun error =>
       json 500 (VObj [("message", VStr "Error accessing the database");
                       ("error", VStr (message error))])).

(** app.get("/products/:id") *)
Definition get_products_id (req : request) : M response :=
  rows <- sql (Select None Products [("id", 1)] [VStr (params_id req)]) ;;
  let product := first rows in
  len <- member product "length" ;;
  if js_gt len (VNum 0)
  then json 200 product
  else json 404 (msg "Produit non trouvé").

(** app.post("/products") *)
Definition post_products (req : request) : M response :=
  match safeParse CreateProductSchema (body req) with
  | Success data =>
      rows <- sql (Insert Products (bound (helper data ["name"; "about"; "price"]))) ;;
      let product := first rows in
      created <- member product "0" ;;
      json 200 created
  | Failure _ => json 400 (msg "Invalid request body")
  end.

(** app.delete("/products/:id") *)
Definition delete_products_id (req : request) : M response :=
  rows <- sql (Delete Products (VStr (params_id req))) ;;
  let product := first rows in
  len <- member product "length" ;;
  if js_gt len (VNum 0)
  then json 200 product
  else json 404 (msg "Produit non trouvé").

(** app.get("/users") *)
Definition get_users (req : request) : M response :=
  rows <- sql (Select None Users [] []) ;;
  parsed <- map_m (fun user => parse getUsers (VObj user)) rows ;;
  json 200 (VArr (map VObj parsed)).

(** app.get("/users/:id") *)
Definition get_users_id (req : request) : M response :=
  rows <- sql (Select None Users [("id", 1)] [VStr (params_id req)]) ;;
  let user := first rows in
  if truthy user
  then json 200 user
  else json 404 (msg "User not found").

(** app.post("/users") *)
Definition post_users (req : request) : M response :=
  match safeParse CreateUserSchema (body req) with
  | Success data =>
      identifier ["req"; "res"; "result"; "hashedPassword"; "user"] "bcrypt" ;;
      let hashedPassword := bcrypt_hash (lookup "password" data) 10 in
      let data := assign "password" hashedPassword data in
      rows <- sql (Insert Users (bound (helper data ["name"; "email"; "password"]))) ;;
      json 200 (VObj data)
  | Failure _ => json 400 (msg "Invalid request body")
  end.

(** app.delete("/users/:id") *)
Definition delete_users_id (req : request) : M response :=
  rows <- sql (Delete Users (VStr (params_id req))) ;;
  let user := first rows in
  if truthy user
  then json 200 user
  else json 404 (msg "User not found").

(** app.put("/users/:id") *)
Definition put_users_id (req : request) : M response :=
  match safeParse CreateUserSchema (body req) with
  | Success data =>
      rows <- sql (Update Users (helper data ["name"; "email"; "password"])
                          (VStr (params_id req))) ;;
      let user := first rows in
      json 200 user
  | Failure _ => json 400 (msg "Invalid request body")
  end.

(** app.patch("/users/:id") *)
Definition patch_users_id (req : request) : M response :=
  let result := safeParse UpdateUserSchema (body req) in
  identifier ["req"; "res"; "result"] "i" ;;
  match result with
  | Success data =>
      let updates :=
        fold_left (fun acc key =>
                     if negb (is_undefined (lookup key data))
                     then assign key (lookup key data) acc
                     else acc)
                  (object_keys data) [] in
      if Nat.eqb (List.length (object_keys updates)) 0
      then json 400 (msg "No valid fields provided for update")
      else
        rows <- sql (Update Users (helper updates []) (VStr (params_id req))) ;;
        let user := first rows in
        json 200 user
  | Failure _ => json 400 (msg "Invalid request body")
  end.

(** app.post("/orders") *)
Definition post_orders (req : request) : M response :=
  match safeParse CreateOrderSchema (body req) with
  | Failure issues =>
      json 400 (VObj [("message", VStr "Invalid order data");
                      ("errors", issues_value issues)])
  | Success data =>
      try_catch
        (rows <- sql (Select (Some ["price"]) Products [("id", 1)]
                             [lookup "productId" data]) ;;
         let product := first rows in
         if negb (truthy product)
         then json 404 (msg "Product not found")
         else
           let vatRate := VNum 1.2 in
           price <- member product "price" ;;
           let total := js_mul (js_mul price (lookup "quantity" data)) vatRate in
           rows <- sql (Insert Orders
                          [(unquoted "userId", Bound (lookup "userId" data));
                           (unquoted "productId", Bound (lookup "productId" data));
                           (unquoted "quantity", Bound (lookup "quantity" data));
                           (unquoted "total", Bound total);
                           (unquoted "createdAt", Now);
                           (unquoted "updatedAt", Now)]) ;;
           let order := first rows in
           json 201 order)
        (fun error =>
           json 500 (VObj [("message", VStr "Failed to create order");
                           ("error", VStr (message error))]))
  end.

(** app.get("/orders") *)
Definition get_orders (req : request) : M response :=
  rows <- sql (Select None Orders [] []) ;;
  json 200 (VArr (map VObj rows)).

(** app.get("/orders/:id") *)
Definition get_orders_id (req : request) : M response :=
  rows <- sql (Select None Orders [("id", 1)] [VStr (params_id req)]) ;;
  let order := first rows in
  if truthy order
  then json 200 order
  else json 404 (msg "Order not found").

(** app.delete("/orders/:id") *)
Definition delete_orders_id (req : request) : M response :=
  rows <- sql (Delete Orders (VStr (params_id req))) ;;
  let order := first rows in
  if truthy order
  then json 200 order
  else json 404 (msg "Order not found").

(** app.patch("/orders/:id") *)
Definition patch_orders_id (req : request) : M response :=
  match safeParse UpdateOrderSchema (body req) with
  | Success data =>
      rows <- sql (Update Orders (helper data ["userId"; "productId"; "quantity"])
                          (VStr (params_id req))) ;;
      let order := first rows in
      json 200 order
  | Failure _ => json 400 (msg "Invalid request body")
  end.

(** Running a handler on a store: what the client gets, the store
    afterwards, and the statements that were sent. *)
Definition run (h : M response) (d : db) : outcome * db * list stmt :=
  match h {| store := d; issued := [] |} with
  | (inl e, w) => (Uncaught e, store w, issued w)
  | (inr r, w) => (Sent r, store w, issued w)
  end.

End Handlers.

(** ** A reference platform

    One instance of [Platform], for running the handlers on concrete
    requests: columns compare with bound values of their own kind, a
    numeric column also with the decimal text of a route parameter.
    Numbers are read from decimal text with an optional sign and an
    optional fraction, without exponent; the result is the nearest
    binary64 value as long as the digits make a number below 2^53. *)

Definition digit_of (c : ascii) : option N :=
  let n := nat_of_ascii c in
  if (48 <=? n)%nat && (n <=? 57)%nat then Some (N.of_nat (n - 48)) else None.

(** The digits at the head of [s]: their number so far, how many they
    are, and what follows them. *)
Fixpoint digits (acc : N) (count : nat) (s : string) : N * nat * string :=
  match s with
  | EmptyString => (acc, count, s)
  | String c s' =>
      match digit_of c with
      | Some d => digits (10 * acc + d)%N (S count) s'
      | None => (acc, count, s)
      end
  end.

Definition float_of_N (n : N) : float :=
  PrimFloat.of_uint63 (Uint63.of_Z (Z.of_N n)).

(** An unsigned decimal at the head of [s] and what follows it. *)
Definition unsigned_decimal (s : string) : option (float * string) :=
  let '(whole, n, rest) := digits 0 0 s in
  match rest with
  | String "."%char after =>
      let '(all, m, rest') := digits whole 0 after in
      match n + m with
      | 0 => None
      | _ => Some ((float_of_N all / float_of_N (10 ^ N.of_nat m))%float, rest')
      end
  | _ =>
      match n with
      | 0 => None
      | _ => Some (float_of_N whole, rest)
      end
  end.

Definition signed_decimal (s : string) : option (float * string) :=
  match s with
  | String "-"%char s' =>
      match unsigned_decimal s' with
      | Some (x, rest) => Some ((- x)%float, rest)
      | None => None
      end
  | String "+"%char s' => unsigned_decimal s'
  | _ => unsigned_decimal s
  end.

(** [parseFloat]: the decimal at the head of the text, whatever
    follows. *)
Definition float_at_head (v : value) : float :=
  match v with
  | VNum x => x
  | VStr s =>
      match signed_decimal s with
      | Some (x, _) => x
      | None => nan
      end
  | _ => nan
  end.

(** The number a whole text stands for; the empty text stands for
    zero. *)
Definition number_of_text (v : value) : float :=
  match v with
  | VStr EmptyString => 0%float
  | VStr s =>
      match signed_decimal s with
      | Some (x, EmptyString) => x
      | _ => nan
      end
  | _ => nan
  end.

Definition same_scalar (stored given : value) : bool :=
  match stored, given with
  | VStr a, VStr b => String.eqb a b
  | VNum a, VNum b => PrimFloat.eqb a b
  | VNum a, VStr _ => PrimFloat.eqb a (number_of_text given)
  | VBool a, VBool b => Bool.eqb a b
  | _, _ => false
  end.

Definition has_at_sign (s : string) : bool :=
  existsb (Ascii.eqb "@"%char) (list_ascii_of_string s).

#[export] Instance reference : Platform := {
  sql_eq := same_scalar;
  parseFloat := float_at_head;
  to_number_text := number_of_text;
  is_email := has_at_sign;
  bcrypt_hash := fun data _ => data
}.

(** ** The filtered read, in two readings *)

Section FilteredRead.
Context {P : Platform}.

Definition predicate_if (present : bool) (c : string) (v : value)
  : list (string * value) :=
  if present then [(c, v)] else [].


(** What the three [if] tests of the handler let through: a filter
    counts when its value is truthy. *)
Definition truthy_predicates (q : object) : list (string * value) :=
  predicate_if (truthy (lookup "name" q)) "name" (lookup "name" q)
  ++ predicate_if (truthy (lookup "about" q)) "about" (lookup "about" q)
  ++ predicate_if (truthy (lookup "price" q)) "price"
       (VNum (parseFloat (lookup "price" q))).

Definition rows_matching (ps : list (string * value)) (rows : list object)
  : list object :=
  filter (fun r => forallb (satisfies r) ps) rows.

End FilteredRead.

(** ** A small shop, for concrete runs *)

Definition widget : object :=
  [("id", VNum 1); ("name", VStr "Widget"); ("about", VStr "tool");
   ("price", VNum 10)].

Definition ann : object :=
  [("id", VNum 1); ("name", VStr "Ann"); ("email", VStr "ann@shop.com");
   ("password", VStr "$2b$10$N9qo8uLOickgx2ZMRZoMye")].

Definition shop : db :=
  {| products := [widget]; users := [ann]; orders := []; serial := 2;
     now := VStr "2024-03-01T10:00:00Z" |}.

Definition request_for (id : string) (b : value) : request :=
  {| params_id := id; query := []; body := b |}.


Definition bob : value :=
  VObj [("name", VStr "Bob"); ("email", VStr "bob@shop.com");
        ("password", VStr "secret")].

Definition gadget : value :=
  VObj [("name", VStr "Gadget"); ("about", VStr "thing"); ("price", VNum 9.99)].

Definition two_widgets : value :=
  VObj [("userId", VNum 1); ("productId", VNum 1); ("quantity", VNum 2)].

Definition two_of_nothing : value :=
  VObj [("userId", VNum 1); ("productId", VNum 5); ("quantity", VNum 2)].

Definition none_of_widget : value :=
  VObj [("userId", VNum 1); ("productId", VNum 1); ("quantity", VNum 0)].

(** ** Rows against a schema *)

Section RowViews.
Context {P : Platform}.

(** Whether [schema.parse(row)] returns rather than throws. *)
Definition passes (s : shape) (row : object) : bool :=
  match safeParse s (VObj row) with
  | Success _ => true
  | Failure _ => false
  end.

End RowViews.

(** The four properties of a user, as [UserSchema] lists them. *)
Definition user_view (row : object) : object :=
  [("id", lookup "id" row); ("name", lookup "name" row);
   ("email", lookup "email" row); ("password", lookup "password" row)].

Definition carl : object :=
  [("id", VNum 2); ("name", VStr "Carl"); ("email", VNull);
   ("password", VStr "$2b$10$CwTycUXWue0Thq9StjUM0u"); ("role", VStr "admin")].

Definition dora : object :=
  [("id", VNum 3); ("name", VStr "Dora"); ("email", VStr "dora@shop.com");
   ("password", VStr "$2b$10$7EqJtq98hPqEX7fNZaFWoO"); ("role", VStr "admin")].

Definition shop_with (people : list object) : db :=
  {| products := [widget]; users := people; orders := []; serial := 4;
     now := VStr "2024-03-01T10:00:00Z" |}.

Definition first_order : object :=
  [("id", VNum 1); ("userId", VNum 1); ("productId", VNum 1);
   ("quantity", VNum 2); ("total", VNum 24);
   ("createdAt", VStr "2024-02-27T09:30:00Z");
   ("updatedAt", VStr "2024-02-27T09:30:00Z")].

Definition shop_with_order : db :=
  {| products := [widget]; users := [ann]; orders := [first_order]; serial := 2;
     now := VStr "2024-03-01T10:00:00Z" |}.

Definition five_for_ann : value :=
  VObj [("userId", VNum 1); ("productId", VNum 1); ("quantity", VNum 5)].

Definition only_quantity : value := VObj [("quantity", VNum 5)].

Definition free_gadget : value :=
  VObj [("name", VStr "Gadget"); ("about", VStr "thing"); ("price", VNum 0)].

(** ** The document service, [NosqlNodejs/index.js]

    Two collections of documents.  An ObjectId is kept as the object
    [{ $oid: hex }] of its 24 hexadecimal digits.  What the [mongodb]
    driver decides (which texts [new ObjectId(text)] takes, which
    identifier [insertOne] generates next) is the class [Bson]. *)

Module Document.

Class Bson : Type := {
  (** [new ObjectId(text)]: the digits of the identifier, or [None]
      when the constructor throws *)
  object_id : string -> option string;
  (** the digits of the n-th identifier the driver generates *)
  generated : nat -> string
}.

Definition oid (hex : string) : value := VObj [("$oid", VStr hex)].

(** A zod type of the service: one of the types above, or an array of
    them. *)
Inductive dtype : Type :=
| Plain (t : ztype)
| ArrayOf (t : ztype).

Definition shape := list (string * dtype).

Definition omit (mask : list (string * bool)) (s : shape) : shape :=
  filter (fun kt : string * dtype =>
            negb (existsb (fun m : string * bool =>
                             String.eqb (fst kt) (fst m) && snd m) mask)) s.

Definition ProductSchema : shape :=
  [("_id", Plain (ZString [])); ("name", Plain (ZString []));
   ("about", Plain (ZString [])); ("price", Plain (ZNumber [Positive]));
   ("categoryIds", ArrayOf (ZString []))].

Definition CreateProductSchema : shape := omit [("_id", true)] ProductSchema.

Definition CategorySchema : shape :=
  [("_id", Plain (ZString [])); ("name", Plain (ZString []))].

Definition CreateCategorySchema : shape := omit [("_id", true)] CategorySchema.

Record collections : Type := {
  product_documents : list object;
  category_documents : list object;
  generated_ids : nat
}.

Inductive collection : Type := ProductDocuments | CategoryDocuments.

Inductive outcome : Type :=
| Sent (r : response)
| Uncaught (message : string).

(** BSON equality of two values, as [$lookup] compares them; a field
    that is missing counts as null. *)
Fixpoint same_value (a b : value) {struct a} : bool :=
  match a, b with
  | (VUndefined | VNull), (VUndefined | VNull) => true
  | VBool x, VBool y => Bool.eqb x y
  | VNum x, VNum y => PrimFloat.eqb x y || (PrimFloat.is_nan x && PrimFloat.is_nan y)
  | VStr x, VStr y => String.eqb x y
  | VArr xs, VArr ys =>
      (fix all (xs ys : list value) {struct xs} : bool :=
         match xs, ys with
         | [], [] => true
         | x :: xs', y :: ys' => same_value x y && all xs' ys'
         | _, _ => false
         end) xs ys
  | VObj xs, VObj ys =>
      (fix all (xs ys : list (string * value)) {struct xs} : bool :=
         match xs, ys with
         | [], [] => true
         | (k, x) :: xs', (k', y) :: ys' =>
             String.eqb k k' && same_value x y && all xs' ys'
         | _, _ => false
         end) xs ys
  | _, _ => false
  end.

Section Service.
Context {P : Platform} {B : Bson}.

Definition parse_field (t : dtype) (v : value) : list string :=
  match t with
  | Plain t' => parse_value t' v
  | ArrayOf t' =>
      match v with
      | VArr items => flat_map (parse_value t') items
      | _ => ["invalid_type"]
      end
  end.

Definition field_issues (input : object) (kt : string * dtype) : list issue :=
  map (fun code => (fst kt, code)) (parse_field (snd kt) (lookup (fst kt) input)).

Definition field_output (input : object) (kt : string * dtype) : object :=
  let v := lookup (fst kt) input in
  if negb (is_undefined v) || has_key (fst kt) input then [(fst kt, v)] else [].

Definition safeParse (s : shape) (input : value) : parse_result :=
  match input with
  | VObj fields =>
      match flat_map (field_issues fields) s with
      | [] => Success (flat_map (field_output fields) s)
      | issues => Failure issues
      end
  | _ => Failure [("", "invalid_type")]
  end.

(** What [res.status(400).send(result)] puts on the wire for a failed
    [safeParse]. *)
Definition failure_body (issues : list issue) : value :=
  VObj [("success", VBool false);
        ("error", VObj [("issues", issues_value issues);
                        ("name", VStr "ZodError")])].

(** [ids.map((id) => new ObjectId(id))]: the first text the constructor
    refuses ends the map. *)
Fixpoint object_ids (ids : list value) : string + list value :=
  match ids with
  | [] => inr []
  | id :: rest =>
      match id with
      | VStr text =>
          match object_id text with
          | Some hex =>
              match object_ids rest with
              | inr converted => inr (oid hex :: converted)
              | inl e => inl e
              end
          | None =>
              inl "input must be a 24 character hex string, 12 byte Uint8Array, or an integer"
          end
      | _ => inl "Argument passed in does not match the accepted types"
      end
  end.

Definition documents_of (c : collection) (s : collections) : list object :=
  match c with
  | ProductDocuments => product_documents s
  | CategoryDocuments => category_documents s
  end.

(** [db.collection(c).insertOne(doc)]: the document goes in under a
    generated [_id], which the acknowledgement carries. *)
Definition insertOne (c : collection) (doc : object) (s : collections)
  : value * collections :=
  let insertedId := oid (generated (generated_ids s)) in
  let stored := ("_id", insertedId) :: doc in
  (insertedId,
   match c with
   | ProductDocuments =>
       {| product_documents := product_documents s ++ [stored];
          category_documents := category_documents s;
          generated_ids := S (generated_ids s) |}
   | CategoryDocuments =>
       {| product_documents := product_documents s;
          category_documents := category_documents s ++ [stored];
          generated_ids := S (generated_ids s) |}
   end).

(** app.post("/products") *)
Definition post_products (req : request) (s : collections) : outcome * collections :=
  match safeParse CreateProductSchema (body req) with
  | Success data =>
      let name := lookup "name" data in
      let about := lookup "about" data in
      let price := lookup "price" data in
      let categoryIds := lookup "categoryIds" data in
      match categoryIds with
      | VArr ids =>
          match object_ids ids with
          | inr categoryObjectIds =>
              let (insertedId, s') :=
                insertOne ProductDocuments
                  [("name", name); ("about", about); ("price", price);
                   ("categoryIds", VArr categoryObjectIds)] s in
              (Sent {| status := 200;
                       body_of := VObj [("_id", insertedId); ("name", name);
                                        ("about", about); ("price", price);
                                        ("categoryIds", VArr categoryObjectIds)] |},
               s')
          | inl e => (Uncaught e, s)
          end
      | _ => (Uncaught "categoryIds.map is not a function", s)
      end
  | Failure issues => (Sent {| status := 400; body_of := failure_body issues |}, s)
  end.

(** app.post("/categories") *)
Definition post_categories (req : request) (s : collections) : outcome * collections :=
  match safeParse CreateCategorySchema (body req) with
  | Success data =>
      let name := lookup "name" data in
      let (insertedId, s') := insertOne CategoryDocuments [("name", name)] s in
      (Sent {| status := 200;
               body_of := VObj [("_id", insertedId); ("name", name)] |}, s')
  | Failure issues => (Sent {| status := 400; body_of := failure_body issues |}, s)
  end.

(** The [$lookup] stage: the documents of [from] whose [foreignField]
    equals the [localField] of the document, or one of its elements
    when that is an array, are set on the document under [as]. *)
Definition joins (local foreign : value) : bool :=
  match local with
  | VArr items => existsb (fun item => same_value item foreign) items
  | _ => same_value local foreign
  end.

Definition lookup_stage (from : list object) (localField foreignField as_ : string)
    (doc : object) : object :=
  assign as_
    (VArr (map VObj (filter (fun f => joins (lookup localField doc)
                                            (lookup foreignField f)) from)))
    doc.

(** app.get("/products"): [$match: {}] keeps every document. *)
Definition get_products (req : request) (s : collections) : outcome * collections :=
  let matched := filter (fun _ => true) (product_documents s) in
  let result := map (lookup_stage (category_documents s)
                       "categoryIds" "_id" "categories") matched in
  (Sent {| status := 200; body_of := VArr (map VObj result) |}, s).

End Service.

End Document.

(** A driver for concrete runs: [new ObjectId] takes 24 hexadecimal
    digits and reads capitals as small letters; the n-th generated
    identifier is n written on 24 digits. *)

Definition small_hex (c : ascii) : option ascii :=
  let n := nat_of_ascii c in
  if (48 <=? n)%nat && (n <=? 57)%nat then Some c
  else if (97 <=? n)%nat && (n <=? 102)%nat then Some c
  else if (65 <=? n)%nat && (n <=? 70)%nat then Some (ascii_of_nat (n + 32))
  else None.

Fixpoint small_hex_text (s : string) : option string :=
  match s with
  | EmptyString => Some EmptyString
  | String c s' =>
      match small_hex c, small_hex_text s' with
      | Some c', Some t => Some (String c' t)
      | _, _ => None
      end
  end.

Definition hex_digit (n : nat) : ascii :=
  if (n <? 10)%nat then ascii_of_nat (48 + n) else ascii_of_nat (87 + n).

Fixpoint hex_digits (width n : nat) : string :=
  match width with
  | 0 => EmptyString
  | S w => hex_digits w (n / 16) ++ String (hex_digit (n mod 16)) EmptyString
  end.

#[export] Instance reference_driver : Document.Bson := {
  Document.object_id := fun text =>
    if Nat.eqb (String.length text) 24 then small_hex_text text else None;
  Document.generated := hex_digits 24
}.

Definition tools : object :=
  [("_id", Document.oid "00000000000000000000000a"); ("name", VStr "Tools")].

Definition catalogue : Document.collections :=
  {| Document.product_documents := [];
     Document.category_documents := [tools];
     Document.generated_ids := 11 |}.

Definition hammer : value :=
  VObj [("name", VStr "Hammer"); ("about", VStr "steel"); ("price", VNum 12.5);
        ("categoryIds", VArr [VStr "00000000000000000000000A"])].

Definition hammer_of_shoes : value :=
  VObj [("name", VStr "Hammer"); ("about", VStr "steel"); ("price", VNum 12.5);
        ("categoryIds", VArr [VStr "shoes"])].

Definition garden : value := VObj [("name", VStr "Garden")].

Definition rake : value :=
  VObj [("name", VStr "Rake"); ("about", VStr "for leaves"); ("price", VNum 8);
        ("categoryIds", VArr [VStr "00000000000000000000000b"])].

(** ** The client script, [REST API/f2p.js]

    The script fetches GET /products and prints one line.  What [fetch]
    settled with is its input: a response, with the value its [json()]
    resolves to ([None] when the body is not JSON), or a rejection. *)

Inductive settled : Type :=
| Fulfilled (status : nat) (payload : option value)
| Rejected (reason : string).

Inductive console_line : Type :=
| Log (data : value)                        (* console.log(data) *)
| Problem (label : string) (reason : string).   (* console.error(label, error) *)

(** [response.ok] *)
Definition ok (status : nat) : bool :=
  (200 <=? status)%nat && (status <=? 299)%nat.

Definition f2p (fetched : settled) : console_line :=
  match fetched with
  | Fulfilled status payload =>
      if ok status
      then match payload with
           | Some data => Log data
           | None =>
               Problem "Il y a eu un problème: "
                       "SyntaxError: Unexpected end of JSON input"
           end
      else Problem "Il y a eu un problème: " "Error: Erreur de connexion."
  | Rejected reason => Problem "Il y a eu un problème: " reason
  end.

(** What a value is once [res.json] has written it and [response.json]
    has read it back: [undefined] has no text; in an array it becomes
    null, in an object its key is left out; a number that is not finite
    becomes null and minus zero becomes zero. *)
Fixpoint json_image (v : value) : option value :=
  match v with
  | VUndefined => None
  | VNull => Some VNull
  | VBool b => Some (VBool b)
  | VNum x =>
      Some (if PrimFloat.is_nan x || PrimFloat.is_infinity x then VNull
            else if PrimFloat.eqb x 0 then VNum 0 else VNum x)
  | VStr s => Some (VStr s)
  | VArr items =>
      Some (VArr ((fix each (items : list value) : list value :=
                     match items with
                     | [] => []
                     | item :: rest =>
                         match json_image item with
                         | Some j => j :: each rest
                         | None => VNull :: each rest
                         end
                     end) items))
  | VObj fields =>
      Some (VObj ((fix each (fields : list (string * value)) : object :=
                     match fields with
                     | [] => []
                     | (k, x) :: rest =>
                         match json_image x with
                         | Some j => (k, j) :: each rest
                         | None => each rest
                         end
                     end) fields))
  end.

Definition json_fields (o : object) : object :=
  match json_image (VObj o) with
  | Some (VObj fields) => fields
  | _ => []
  end.

(** The response of the service as [fetch] hands it to the script. *)
Definition delivered (r : response) : settled :=
  Fulfilled (status r) (json_image (body_of r)).

Definition f2p_request : request :=
  {| params_id := ""; query := []; body := VUndefined |}.

(** ** Lemmas on the datastore and the schemas *)

Section Lemmas.
Context {P : Platform}.

Lemma select_by_id (columns : option (list string)) (t : table) (v : value) (d : db) :
  is_undefined v = false ->
  exec (Select columns t [("id", 1)] [v]) d
  = (inr (map (project columns) (filter (has_id v) (rows_of t d))), d).
Proof.
  intros Hv. unfold exec. simpl. rewrite Hv. simpl.
  do 3 f_equal. apply filter_ext. intros r.
  unfold satisfies, has_id. simpl. apply andb_true_r.
Qed.

Lemma project_all (rows : list object) : map (project None) rows = rows.
Proof. apply map_id. Qed.

(** A body that passes [CreateOrderSchema] yields three numbers, the
    quantity above zero. *)
Lemma order_schema_fields (b : value) (data : object) :
  safeParse CreateOrderSchema b = Success data ->
  exists u p q,
    data = [("userId", VNum u); ("productId", VNum p); ("quantity", VNum q)]
    /\ PrimFloat.leb q 0 = false.
Proof.
  destruct b as [| | | | |items|fields]; try discriminate.
  unfold safeParse, CreateOrderSchema, field_issues, field_output. simpl.
  destruct (lookup "userId" fields) as [| | |u| | |]; try discriminate.
  simpl. destruct (PrimFloat.is_nan u); try discriminate.
  destruct (lookup "productId" fields) as [| | |p| | |]; try discriminate.
  simpl. destruct (PrimFloat.is_nan p); try discriminate.
  destruct (lookup "quantity" fields) as [| | |q| | |]; try discriminate.
  simpl. destruct (PrimFloat.is_nan q); try discriminate.
  destruct (PrimFloat.leb q 0) eqn:Hq; try discriminate.
  simpl. intros H. injection H as <-. exists u, p, q. split; [reflexivity | exact Hq].
Qed.

End Lemmas.

(** ** Order creation *)

Section OrderCreation.
Context {P : Platform}.

(** C1: when the body of POST /orders passes validation and its
    productId finds a product, the answer is 201 with one order; that
    order is what the request adds to the orders table, at its end,
    products and users staying as they are; and the total of the order,
    returned and stored, is price * quantity * 1.2 in the arithmetic of
    the program, the price being the price column of the product (NULL
    when the row holds none) and the quantity the one of the body. *)
Theorem post_orders_total (req : request) (d : db)
    (data product : object) (others : list object) :
  safeParse CreateOrderSchema (body req) = Success data ->
  filter (has_id (lookup "productId" data)) (products d) = product :: others ->
  exists (q : float) (order : object) (d' : db),
    lookup "quantity" data = VNum q
    /\ run (post_orders req) d
       = (Sent {| status := 201; body_of := VObj order |}, d',
          [Select (Some ["price"]) Products [("id", 1)] [lookup "productId" data];
           Insert Orders
             [("userid", Bound (lookup "userId" data));
              ("productid", Bound (lookup "productId" data));
              ("quantity", Bound (VNum q));
              ("total", Bound (lookup "total" order));
              ("createdat", Now); ("updatedat", Now)]])
    /\ lookup "total" order
       = VNum (to_number (if has_key "price" product
                          then lookup "price" product else VNull)
               * q * 1.2)%float
    /\ orders d' = orders d ++ [order]
    /\ products d' = products d
    /\ users d' = users d.
Proof.
  intros Hparse Hfound.
  destruct (order_schema_fields _ _ Hparse) as (u & p & q & -> & Hq).
  simpl in Hfound.
  exists q.
  exists [("id", number_of_nat (serial d)); ("userid", VNum u);
          ("productid", VNum p); ("quantity", VNum q);
          ("total",
           VNum (to_number (if has_key "price" product
                            then lookup "price" product else VNull)
                 * q * 1.2)%float);
          ("createdat", now d); ("updatedat", now d)].
  eexists. split; [reflexivity|].
  unfold run, post_orders. rewrite Hparse.
  unfold try_catch, bind, sql. simpl store.
  simpl (lookup "productId" _).
  rewrite select_by_id by reflexivity.
  cbn [rows_of]. rewrite Hfound. simpl.
  split; [reflexivity|]. repeat split.
Qed.

(** C2: when the body of POST /orders passes validation and its
    productId finds no product, the answer is 404 "Product not found",
    the store is as before and the only statement sent is the lookup. *)
Theorem post_orders_unknown_product (req : request) (d : db) (data : object) :
  safeParse CreateOrderSchema (body req) = Success data ->
  filter (has_id (lookup "productId" data)) (products d) = [] ->
  run (post_orders req) d
  = (Sent {| status := 404; body_of := msg "Product not found" |}, d,
     [Select (Some ["price"]) Products [("id", 1)] [lookup "productId" data]]).
Proof.
  intros Hparse Hnone.
  destruct (order_schema_fields _ _ Hparse) as (u & p & q & -> & Hq).
  simpl in Hnone.
  unfold run, post_orders. rewrite Hparse.
  unfold try_catch, bind, sql. simpl store.
  simpl (lookup "productId" _).
  rewrite select_by_id by reflexivity.
  cbn [rows_of]. rewrite Hnone. reflexivity.
Qed.

End OrderCreation.

Lemma post_orders_total_witness :
  exists (q : float) (order : object) (d' : db),
    lookup "quantity"
      [("userId", VNum 1); ("productId", VNum 1); ("quantity", VNum 2)] = VNum q
    /\ run (post_orders (request_for "" two_widgets)) shop
       = (Sent {| status := 201; body_of := VObj order |}, d',
          [Select (Some ["price"]) Products [("id", 1)] [VNum 1];
           Insert Orders
             [("userid", Bound (VNum 1)); ("productid", Bound (VNum 1));
              ("quantity", Bound (VNum q));
              ("total", Bound (lookup "total" order));
              ("createdat", Now); ("updatedat", Now)]])
    /\ lookup "total" order
       = VNum (to_number (if has_key "price" widget
                          then lookup "price" widget else VNull)
               * q * 1.2)%float
    /\ orders d' = orders shop ++ [order]
    /\ products d' = products shop
    /\ users d' = users shop.
Proof.
  exact (post_orders_total (request_for "" two_widgets) shop
           [("userId", VNum 1); ("productId", VNum 1); ("quantity", VNum 2)]
           widget [] eq_refl eq_refl).
Defined.

(** The example of the specification: a price of 10.00 and a quantity
    of 2 give a total of 24.00. *)
Example post_orders_ten_by_two :
  run (post_orders (request_for "" two_widgets)) shop
  = (Sent {| status := 201;
             body_of := VObj [("id", VNum 2); ("userid", VNum 1);
                              ("productid", VNum 1); ("quantity", VNum 2);
                              ("total", VNum 24);
                              ("createdat", now shop); ("updatedat", now shop)] |},
     {| products := [widget]; users := [ann];
        orders := [[("id", VNum 2); ("userid", VNum 1); ("productid", VNum 1);
                    ("quantity", VNum 2); ("total", VNum 24);
                    ("createdat", now shop); ("updatedat", now shop)]];
        serial := 3; now := now shop |},
     [Select (Some ["price"]) Products [("id", 1)] [VNum 1];
      Insert Orders [("userid", Bound (VNum 1)); ("productid", Bound (VNum 1));
                     ("quantity", Bound (VNum 2)); ("total", Bound (VNum 24));
                     ("createdat", Now); ("updatedat", Now)]]).
Proof. vm_compute. reflexivity. Qed.

Lemma post_orders_unknown_product_witness :
  run (post_orders (request_for "" two_of_nothing)) shop
  = (Sent {| status := 404; body_of := msg "Product not found" |}, shop,
     [Select (Some ["price"]) Products [("id", 1)] [VNum 5]]).
Proof.
  apply (post_orders_unknown_product (request_for "" two_of_nothing) shop
           [("userId", VNum 1); ("productId", VNum 5); ("quantity", VNum 2)]);
    reflexivity.
Defined.

(** ** User creation *)

Section UserCreation.
Context {P : Platform}.

(** C10: a POST /users whose body passes validation ends in the
    ReferenceError that evaluating the unbound name bcrypt raises; the
    store is as before and no statement was sent. *)
Theorem post_users_reference_error (req : request) (d : db) (data : object) :
  safeParse CreateUserSchema (body req) = Success data ->
  run (post_users req) d = (Uncaught (ReferenceError "bcrypt"), d, []).
Proof.
  intros Hparse. unfold run, post_users. rewrite Hparse. reflexivity.
Qed.

(** Whatever the body, POST /users sends no statement and leaves the
    store alone, and the only answer it ever gives is the 400. *)
Lemma post_users_never_inserts (req : request) (d : db) :
  exists o, run (post_users req) d = (o, d, [])
            /\ forall r, o = Sent r -> status r = 400.
Proof.
  unfold run, post_users.
  destruct (safeParse CreateUserSchema (body req)) as [data|issues].
  - eexists. split; [reflexivity|]. intros r H. discriminate H.
  - eexists. split; [reflexivity|]. intros r H. injection H as <-. reflexivity.
Qed.

End UserCreation.

Lemma post_users_reference_error_witness :
  run (post_users (request_for "" bob)) shop
  = (Uncaught (ReferenceError "bcrypt"), shop, []).
Proof.
  apply (post_users_reference_error (request_for "" bob) shop
           [("name", VStr "Bob"); ("email", VStr "bob@shop.com");
            ("password", VStr "secret")]).
  reflexivity.
Defined.

(** ** Filtered product read *)

Section ProductRead.
Context {P : Platform}.


Lemma rows_matching_nil (rows : list object) : rows_matching [] rows = rows.
Proof.
  unfold rows_matching. induction rows as [|r rows IH]; simpl in *; congruence.
Qed.


End ProductRead.



(** ** Reading one entity *)

Section ReadOne.
Context {P : Platform}.

Lemma lookup_absent (k : string) (o : object) :
  has_key k o = false -> lookup k o = VUndefined.
Proof.
  induction o as [|[k' v] o IH]; simpl; [reflexivity|].
  destruct (String.eqb k k'); simpl; [discriminate | exact IH].
Qed.


Lemma get_users_id_absent (req : request) (d : db) :
  filter (has_id (VStr (params_id req))) (users d) = [] ->
  run (get_users_id req) d
  = (Sent {| status := 404; body_of := msg "User not found" |}, d,
     [Select None Users [("id", 1)] [VStr (params_id req)]]).
Proof.
  intros Hnone. unfold run, get_users_id, bind, sql. simpl store.
  rewrite select_by_id by reflexivity. rewrite project_all.
  cbn [rows_of]. rewrite Hnone. reflexivity.
Qed.

Lemma get_orders_id_found (req : request) (d : db) (order : object) (others : list object) :
  filter (has_id (VStr (params_id req))) (orders d) = order :: others ->
  run (get_orders_id req) d
  = (Sent {| status := 200; body_of := VObj order |}, d,
     [Select None Orders [("id", 1)] [VStr (params_id req)]]).
Proof.
  intros Hfound. unfold run, get_orders_id, bind, sql. simpl store.
  rewrite select_by_id by reflexivity. rewrite project_all.
  cbn [rows_of]. rewrite Hfound. reflexivity.
Qed.

Lemma get_orders_id_absent (req : request) (d : db) :
  filter (has_id (VStr (params_id req))) (orders d) = [] ->
  run (get_orders_id req) d
  = (Sent {| status := 404; body_of := msg "Order not found" |}, d,
     [Select None Orders [("id", 1)] [VStr (params_id req)]]).
Proof.
  intros Hnone. unfold run, get_orders_id, bind, sql. simpl store.
  rewrite select_by_id by reflexivity. rewrite project_all.
  cbn [rows_of]. rewrite Hnone. reflexivity.
Qed.

(** The product route tests [product.length > 0] on the row itself: a
    row without a column called length is reported as missing. *)
Lemma get_products_id_found (req : request) (d : db)
    (product : object) (others : list object) :
  filter (has_id (VStr (params_id req))) (products d) = product :: others ->
  has_key "length" product = false ->
  run (get_products_id req) d
  = (Sent {| status := 404; body_of := msg "Produit non trouvé" |}, d,
     [Select None Products [("id", 1)] [VStr (params_id req)]]).
Proof.
  intros Hfound Hlength. unfold run, get_products_id, bind, sql. simpl store.
  rewrite select_by_id by reflexivity. rewrite project_all.
  cbn [rows_of]. rewrite Hfound. simpl.
  rewrite (lookup_absent _ _ Hlength). reflexivity.
Qed.

Lemma get_products_id_absent (req : request) (d : db) :
  filter (has_id (VStr (params_id req))) (products d) = [] ->
  run (get_products_id req) d
  = (Uncaught (TypeError "Cannot read properties of undefined (reading 'length')"),
     d, [Select None Products [("id", 1)] [VStr (params_id req)]]).
Proof.
  intros Hnone. unfold run, get_products_id, bind, sql. simpl store.
  rewrite select_by_id by reflexivity. rewrite project_all.
  cbn [rows_of]. rewrite Hnone. reflexivity.
Qed.

End ReadOne.

(** C6, on the code: GET /products/1 in a store that holds product 1
    answers 404, and GET /products/7, which no product has, ends in an
    uncaught TypeError; neither answers as the claim says. *)
Theorem get_products_id_misreports :
  filter (has_id (VStr "1")) (products shop) = [widget]
  /\ run (get_products_id (request_for "1" VUndefined)) shop
     = (Sent {| status := 404; body_of := msg "Produit non trouvé" |}, shop,
        [Select None Products [("id", 1)] [VStr "1"]])
  /\ filter (has_id (VStr "7")) (products shop) = []
  /\ run (get_products_id (request_for "7" VUndefined)) shop
     = (Uncaught (TypeError "Cannot read properties of undefined (reading 'length')"),
        shop, [Select None Products [("id", 1)] [VStr "7"]]).
Proof. repeat split. Qed.

(** The mask of [getUsers] holds [false] for password, so nothing is
    left out of [UserSchema]. *)
Lemma getUsers_keeps_password : getUsers = UserSchema.
Proof. reflexivity. Qed.

(** C4, on the code: GET /users/1 and GET /users both answer with the
    row of the user as it is stored, password column included. *)
Theorem user_reads_return_password :
  run (get_users_id (request_for "1" VUndefined)) shop
  = (Sent {| status := 200; body_of := VObj ann |}, shop,
     [Select None Users [("id", 1)] [VStr "1"]])
  /\ run (get_users (request_for "" VUndefined)) shop
     = (Sent {| status := 200; body_of := VArr [VObj ann] |}, shop,
        [Select None Users [] []])
  /\ lookup "password" ann = VStr "$2b$10$N9qo8uLOickgx2ZMRZoMye".
Proof. repeat split. Qed.

(** ** Creating a product *)

Section Create.
Context {P : Platform}.



End Create.

(** C5, on the code: POST /products with a valid body stores the
    product under the next identifier and answers 200 with an undefined
    body, so no submitted field and no identifier comes back; POST
    /users with a valid body ends in the ReferenceError on bcrypt. *)
Theorem post_products_answers_nothing :
  safeParse CreateProductSchema gadget
  = Success [("name", VStr "Gadget"); ("about", VStr "thing"); ("price", VNum 9.99)]
  /\ run (post_products (request_for "" gadget)) shop
     = (Sent {| status := 200; body_of := VUndefined |},
        bump (set_rows Products
                [widget;
                 [("id", VNum 2); ("name", VStr "Gadget"); ("about", VStr "thing");
                  ("price", VNum 9.99)]] shop),
        [Insert Products [("name", Bound (VStr "Gadget"));
                          ("about", Bound (VStr "thing"));
                          ("price", Bound (VNum 9.99))]])
  /\ run (post_users (request_for "" bob)) shop
     = (Uncaught (ReferenceError "bcrypt"), shop, []).
Proof. repeat split. Qed.

(** ** Updating *)

Section Update.
Context {P : Platform}.

Lemma user_schema_fields (b : value) (data : object) :
  safeParse CreateUserSchema b = Success data ->
  exists n e p,
    data = [("name", VStr n); ("email", VStr e); ("password", VStr p)].
Proof.
  destruct b as [| | | | |items|fields]; try discriminate.
  unfold safeParse, CreateUserSchema, field_issues, field_output. simpl.
  destruct (lookup "name" fields) as [| | | |n| |]; try discriminate.
  destruct (lookup "email" fields) as [| | | |e| |]; try discriminate.
  destruct (lookup "password" fields) as [| | | |p| |]; try discriminate.
  simpl. intros H. injection H as <-. exists n, e, p. reflexivity.
Qed.

Lemma update_unmatched (id : value) (f : object -> object) (rows : list object) :
  filter (has_id id) rows = [] ->
  map (fun r => if has_id id r then f r else r) rows = rows.
Proof.
  induction rows as [|r rows IH]; simpl; [reflexivity|].
  destruct (has_id id r); [discriminate|].
  intros H. rewrite (IH H). reflexivity.
Qed.

(** PUT /users/:id has no test on the row it gets back: when no row
    has the identifier, the answer is 200 with an undefined body. *)
Lemma put_users_id_unmatched (req : request) (d : db) (data : object) :
  safeParse CreateUserSchema (body req) = Success data ->
  filter (has_id (VStr (params_id req))) (users d) = [] ->
  run (put_users_id req) d
  = (Sent {| status := 200; body_of := VUndefined |}, d,
     [Update Users data (VStr (params_id req))]).
Proof.
  intros Hparse Hnone.
  destruct (user_schema_fields _ _ Hparse) as (n & e & p & ->).
  unfold run, put_users_id. rewrite Hparse.
  unfold bind, sql, exec. simpl. rewrite Hnone.
  rewrite (update_unmatched _ _ _ Hnone).
  destruct d; reflexivity.
Qed.

(** The statement [i;] of PATCH /users/:id stands before the test on
    the parse result: every request ends there. *)
Lemma patch_users_id_always_throws (req : request) (d : db) :
  run (patch_users_id req) d = (Uncaught (ReferenceError "i"), d, []).
Proof. reflexivity. Qed.

(** PATCH /orders/:id names its three columns whatever the body
    holds: with no field in the parsed body all three are undefined and
    the driver refuses the statement. *)
Lemma patch_orders_id_without_fields (req : request) (d : db) :
  safeParse UpdateOrderSchema (body req) = Success [] ->
  run (patch_orders_id req) d
  = (Uncaught (PostgresError "UNDEFINED_VALUE"), d,
     [Update Orders [("userId", VUndefined); ("productId", VUndefined);
                     ("quantity", VUndefined)] (VStr (params_id req))]).
Proof.
  intros Hparse. unfold run, patch_orders_id. rewrite Hparse. reflexivity.
Qed.

End Update.

(** C7, on the code: with valid bodies and an identifier no row has,
    PUT /users/9 and PATCH /orders/9 answer 200 with an undefined body,
    and PATCH /users/9 ends in the ReferenceError on i; none answers
    404. *)
Theorem updates_of_missing_rows :
  filter (has_id (VStr "9")) (users shop) = []
  /\ run (put_users_id (request_for "9" bob)) shop
     = (Sent {| status := 200; body_of := VUndefined |}, shop,
        [Update Users [("name", VStr "Bob"); ("email", VStr "bob@shop.com");
                       ("password", VStr "secret")] (VStr "9")])
  /\ run (patch_users_id (request_for "9" (VObj [("name", VStr "Bob")]))) shop
     = (Uncaught (ReferenceError "i"), shop, [])
  /\ run (patch_orders_id (request_for "9" two_widgets)) shop
     = (Sent {| status := 200; body_of := VUndefined |}, shop,
        [Update Orders [("userId", VNum 1); ("productId", VNum 1);
                        ("quantity", VNum 2)] (VStr "9")]).
Proof. repeat split. Qed.

(** C3, on the code: an empty body passes both update schemas with no
    field; PATCH /users/1 then ends in the ReferenceError on i before
    its test for an empty field set, and PATCH /orders/1, which has no
    such test, hands the driver an UPDATE of three undefined values,
    which the driver refuses.  Neither answers 400. *)
Theorem patch_without_fields :
  safeParse UpdateUserSchema (VObj []) = Success []
  /\ run (patch_users_id (request_for "1" (VObj []))) shop
     = (Uncaught (ReferenceError "i"), shop, [])
  /\ safeParse UpdateOrderSchema (VObj []) = Success []
  /\ run (patch_orders_id (request_for "1" (VObj []))) shop
     = (Uncaught (PostgresError "UNDEFINED_VALUE"), shop,
        [Update Orders [("userId", VUndefined); ("productId", VUndefined);
                        ("quantity", VUndefined)] (VStr "1")]).
Proof. repeat split. Qed.

(** ** Deleting *)

Section Delete.
Context {P : Platform}.

Lemma nothing_left (id : value) (rows : list object) :
  filter (has_id id) (filter (fun r => negb (has_id id r)) rows) = [].
Proof.
  induction rows as [|r rows IH]; simpl; [reflexivity|].
  destruct (has_id id r) eqn:Hr; simpl; [exact IH|].
  rewrite Hr. exact IH.
Qed.

Lemma keep_unmatched (id : value) (rows : list object) :
  filter (has_id id) rows = [] ->
  filter (fun r => negb (has_id id r)) rows = rows.
Proof.
  induction rows as [|r rows IH]; simpl; [reflexivity|].
  destruct (has_id id r); [discriminate|].
  simpl. intros H. rewrite (IH H). reflexivity.
Qed.

Lemma delete_users_id_found (req : request) (d : db) (user : object) (others : list object) :
  filter (has_id (VStr (params_id req))) (users d) = user :: others ->
  run (delete_users_id req) d
  = (Sent {| status := 200; body_of := VObj user |},
     set_rows Users
       (filter (fun r => negb (has_id (VStr (params_id req)) r)) (users d)) d,
     [Delete Users (VStr (params_id req))]).
Proof.
  intros Hfound. unfold run, delete_users_id, bind, sql, exec. simpl.
  rewrite Hfound. reflexivity.
Qed.

Lemma delete_users_id_absent (req : request) (d : db) :
  filter (has_id (VStr (params_id req))) (users d) = [] ->
  exists d',
    run (delete_users_id req) d
    = (Sent {| status := 404; body_of := msg "User not found" |}, d',
       [Delete Users (VStr (params_id req))])
    /\ users d' = users d.
Proof.
  intros Hnone. unfold run, delete_users_id, bind, sql, exec. simpl.
  rewrite Hnone. eexists. split; [reflexivity|]. simpl.
  apply keep_unmatched. exact Hnone.
Qed.

(** A user that was deleted is not found by a second delete. *)
Lemma delete_users_id_twice (req : request) (d : db) (user : object) (others : list object) :
  filter (has_id (VStr (params_id req))) (users d) = user :: others ->
  exists d1 d2,
    run (delete_users_id req) d
    = (Sent {| status := 200; body_of := VObj user |}, d1,
       [Delete Users (VStr (params_id req))])
    /\ run (delete_users_id req) d1
       = (Sent {| status := 404; body_of := msg "User not found" |}, d2,
          [Delete Users (VStr (params_id req))]).
Proof.
  intros Hfound. rewrite (delete_users_id_found _ _ _ _ Hfound).
  destruct (delete_users_id_absent req
              (set_rows Users
                 (filter (fun r => negb (has_id (VStr (params_id req)) r)) (users d)) d))
    as (d2 & Hrun & _).
  - simpl. apply nothing_left.
  - eexists. exists d2. split; [reflexivity | exact Hrun].
Qed.

Lemma delete_orders_id_found (req : request) (d : db) (order : object) (others : list object) :
  filter (has_id (VStr (params_id req))) (orders d) = order :: others ->
  run (delete_orders_id req) d
  = (Sent {| status := 200; body_of := VObj order |},
     set_rows Orders
       (filter (fun r => negb (has_id (VStr (params_id req)) r)) (orders d)) d,
     [Delete Orders (VStr (params_id req))]).
Proof.
  intros Hfound. unfold run, delete_orders_id, bind, sql, exec. simpl.
  rewrite Hfound. reflexivity.
Qed.

Lemma delete_orders_id_absent (req : request) (d : db) :
  filter (has_id (VStr (params_id req))) (orders d) = [] ->
  exists d',
    run (delete_orders_id req) d
    = (Sent {| status := 404; body_of := msg "Order not found" |}, d',
       [Delete Orders (VStr (params_id req))])
    /\ orders d' = orders d.
Proof.
  intros Hnone. unfold run, delete_orders_id, bind, sql, exec. simpl.
  rewrite Hnone. eexists. split; [reflexivity|]. simpl.
  apply keep_unmatched. exact Hnone.
Qed.

End Delete.

(** C8, on the code: DELETE /products/1 in a store that holds product
    1 removes the row and answers 404; the same request once more ends
    in an uncaught TypeError.  The row that was removed is never
    returned. *)
Theorem delete_products_id_twice :
  filter (has_id (VStr "1")) (products shop) = [widget]
  /\ run (delete_products_id (request_for "1" VUndefined)) shop
     = (Sent {| status := 404; body_of := msg "Produit non trouvé" |},
        set_rows Products [] shop, [Delete Products (VStr "1")])
  /\ run (delete_products_id (request_for "1" VUndefined)) (set_rows Products [] shop)
     = (Uncaught (TypeError "Cannot read properties of undefined (reading 'length')"),
        set_rows Products [] shop, [Delete Products (VStr "1")]).
Proof. repeat split. Qed.

(** ** Validation of orders and products *)

Section Validation.
Context {P : Platform}.

(** One field that raises an issue is enough for the parse to fail. *)
Lemma safeParse_issue (s : shape) (fields : object)
    (k : string) (t : ztype) (c : string) (cs : list string) :
  In (k, t) s ->
  parse_value t (lookup k fields) = c :: cs ->
  exists i rest, safeParse s (VObj fields) = Failure (i :: rest).
Proof.
  intros Hin Hc. unfold safeParse.
  destruct (flat_map (field_issues fields) s) as [|i rest] eqn:E.
  - exfalso.
    assert (H : In (k, c) (flat_map (field_issues fields) s)).
    { apply in_flat_map. exists (k, t). split; [exact Hin|].
      unfold field_issues. simpl. rewrite Hc. left. reflexivity. }
    rewrite E in H. exact H.
  - exists i, rest. reflexivity.
Qed.

(** X1: a body passes CreateOrderSchema exactly when it is an object
    whose userId, productId and quantity are numbers other than NaN
    with the quantity not below or at zero; the parsed data are these
    three fields and nothing else of the body. *)
Theorem order_schema_accepts (b : value) (data : object) :
  safeParse CreateOrderSchema b = Success data
  <-> exists fields u p q,
        b = VObj fields
        /\ lookup "userId" fields = VNum u
        /\ lookup "productId" fields = VNum p
        /\ lookup "quantity" fields = VNum q
        /\ PrimFloat.is_nan u = false
        /\ PrimFloat.is_nan p = false
        /\ PrimFloat.is_nan q = false
        /\ PrimFloat.leb q 0 = false
        /\ data = [("userId", VNum u); ("productId", VNum p); ("quantity", VNum q)].
Proof.
  split.
  - destruct b as [| | | | |items|fields]; try discriminate.
    unfold safeParse, CreateOrderSchema, field_issues, field_output. simpl.
    destruct (lookup "userId" fields) as [| | |u| | |] eqn:Hu; try discriminate.
    simpl. destruct (PrimFloat.is_nan u) eqn:Nu; try discriminate.
    destruct (lookup "productId" fields) as [| | |p| | |] eqn:Hp; try discriminate.
    simpl. destruct (PrimFloat.is_nan p) eqn:Np; try discriminate.
    destruct (lookup "quantity" fields) as [| | |q| | |] eqn:Hq; try discriminate.
    simpl. destruct (PrimFloat.is_nan q) eqn:Nq; try discriminate.
    destruct (PrimFloat.leb q 0) eqn:Lq; try discriminate.
    simpl. intros H. injection H as <-.
    exists fields, u, p, q. repeat split; assumption.
  - intros (fields & u & p & q & -> & Hu & Hp & Hq & Nu & Np & Nq & Lq & ->).
    unfold safeParse, CreateOrderSchema, field_issues, field_output. simpl.
    rewrite Hu, Hp, Hq. simpl. rewrite Nu, Np, Nq, Lq. reflexivity.
Qed.

(** X2: POST /orders with a quantity at or below zero is refused with
    400 "Invalid order data" and a list of issues that is not empty;
    nothing is sent to the datastore and the store is as before. *)
Theorem post_orders_rejects_quantity (req : request) (d : db)
    (fields : object) (q : float) :
  body req = VObj fields ->
  lookup "quantity" fields = VNum q ->
  PrimFloat.leb q 0 = true ->
  exists i rest,
    run (post_orders req) d
    = (Sent {| status := 400;
               body_of := VObj [("message", VStr "Invalid order data");
                                ("errors", issues_value (i :: rest))] |},
       d, []).
Proof.
  intros Hbody Hq Lq.
  assert (Hissue : exists c cs,
             parse_value (ZNumber [Positive]) (lookup "quantity" fields) = c :: cs).
  { rewrite Hq. simpl. destruct (PrimFloat.is_nan q).
    - eexists. eexists. reflexivity.
    - rewrite Lq. eexists. eexists. reflexivity. }
  destruct Hissue as (c & cs & Hc).
  destruct (safeParse_issue CreateOrderSchema fields "quantity"
              (ZNumber [Positive]) c cs)
    as (i & rest & Hfail); [simpl; auto | exact Hc |].
  exists i, rest. unfold run, post_orders. rewrite Hbody, Hfail. reflexivity.
Qed.

End Validation.

Lemma order_schema_accepts_witness :
  safeParse CreateOrderSchema two_widgets
  = Success [("userId", VNum 1); ("productId", VNum 1); ("quantity", VNum 2)].
Proof.
  apply (proj2 (order_schema_accepts two_widgets _)).
  exists [("userId", VNum 1); ("productId", VNum 1); ("quantity", VNum 2)],
    1%float, 1%float, 2%float.
  repeat split.
Defined.

Lemma post_orders_rejects_quantity_witness :
  exists i rest,
    run (post_orders (request_for "" none_of_widget)) shop
    = (Sent {| status := 400;
               body_of := VObj [("message", VStr "Invalid order data");
                                ("errors", issues_value (i :: rest))] |},
       shop, []).
Proof.
  apply (post_orders_rejects_quantity (request_for "" none_of_widget) shop
           [("userId", VNum 1); ("productId", VNum 1); ("quantity", VNum 0)]
           0%float); reflexivity.
Defined.

(** ** Orders: what a request can do to the store *)

Section Orders.
Context {P : Platform}.

Lemma select_all (t : table) (d : db) :
  exec (Select None t [] []) d = (inr (rows_of t d), d).
Proof.
  unfold exec. simpl. rewrite project_all.
  pose proof (rows_matching_nil (rows_of t d)) as H.
  unfold rows_matching in H. simpl in H. rewrite H. reflexivity.
Qed.

Lemma select_keeps_store (columns : option (list string)) (t : table)
    (conditions : list (string * nat)) (values : list value) (d : db) :
  snd (exec (Select columns t conditions values) d) = d.
Proof.
  unfold exec. destruct (existsb is_undefined values); [reflexivity|].
  destruct (resolve conditions values); reflexivity.
Qed.

(** The run of POST /orders on a valid body whose product exists. *)
Lemma post_orders_created (req : request) (d : db) (u p q : float)
    (product : object) (others : list object) :
  safeParse CreateOrderSchema (body req)
  = Success [("userId", VNum u); ("productId", VNum p); ("quantity", VNum q)] ->
  filter (has_id (VNum p)) (products d) = product :: others ->
  let order :=
    [("id", number_of_nat (serial d)); ("userid", VNum u); ("productid", VNum p);
     ("quantity", VNum q);
     ("total", VNum (to_number (snd (column product "price")) * q * 1.2)%float);
     ("createdat", now d); ("updatedat", now d)] in
  run (post_orders req) d
  = (Sent {| status := 201; body_of := VObj order |},
     bump (set_rows Orders (orders d ++ [order]) d),
     [Select (Some ["price"]) Products [("id", 1)] [VNum p];
      Insert Orders [("userid", Bound (VNum u)); ("productid", Bound (VNum p));
                     ("quantity", Bound (VNum q));
                     ("total",
                      Bound (VNum (to_number (snd (column product "price")) * q * 1.2)%float));
                     ("createdat", Now); ("updatedat", Now)]]).
Proof.
  intros Hparse Hfound order.
  unfold run, post_orders. rewrite Hparse.
  unfold try_catch, bind, sql. simpl store.
  simpl (lookup "productId" _).
  rewrite select_by_id by reflexivity.
  cbn [rows_of]. rewrite Hfound. reflexivity.
Qed.

(** X3: POST /orders writes all or nothing.  Whatever the request and
    whatever the answer, the products and the users are as they were.
    When the answer is 201 it carries one order and the orders are the
    former ones followed by that order; with any other answer, or none,
    the whole store is as it was. *)
Theorem post_orders_store_invariant (req : request) (d : db) :
  exists o d' sent,
    run (post_orders req) d = (o, d', sent)
    /\ products d' = products d
    /\ users d' = users d
    /\ ((exists order,
           o = Sent {| status := 201; body_of := VObj order |}
           /\ orders d' = orders d ++ [order])
        \/ ((forall r, o = Sent r -> status r <> 201) /\ d' = d)).
Proof.
  destruct (safeParse CreateOrderSchema (body req)) as [data|issues] eqn:Hparse.
  - destruct (order_schema_fields _ _ Hparse) as (u & p & q & -> & Hq).
    destruct (filter (has_id (VNum p)) (products d)) as [|product others] eqn:Hfind.
    + exists (Sent {| status := 404; body_of := msg "Product not found" |}), d,
        [Select (Some ["price"]) Products [("id", 1)] [VNum p]].
      split.
      * unfold run, post_orders. rewrite Hparse.
        unfold try_catch, bind, sql. simpl store.
        simpl (lookup "productId" _).
        rewrite select_by_id by reflexivity.
        cbn [rows_of]. rewrite Hfind. reflexivity.
      * repeat split. right. split; [|reflexivity].
        intros r H. injection H as <-. discriminate.
    + rewrite (post_orders_created req d u p q product others Hparse Hfind).
      eexists. eexists. eexists. split; [reflexivity|].
      repeat split. left. eexists. repeat split.
  - unfold run, post_orders. rewrite Hparse.
    eexists. eexists. eexists. split; [reflexivity|].
    repeat split. right. split; [|reflexivity].
    intros r H. injection H as <-. discriminate.
Qed.

(** X4: after POST /orders has answered 201, GET /orders lists the
    orders that were there, in their order, followed by the order just
    created, as POST /orders returned it. *)
Theorem post_orders_then_list (req req' : request) (d : db)
    (data product : object) (others : list object) :
  safeParse CreateOrderSchema (body req) = Success data ->
  filter (has_id (lookup "productId" data)) (products d) = product :: others ->
  exists order d' sent,
    run (post_orders req) d
    = (Sent {| status := 201; body_of := VObj order |}, d', sent)
    /\ run (get_orders req') d'
       = (Sent {| status := 200;
                  body_of := VArr (map VObj (orders d) ++ [VObj order]) |},
          d', [Select None Orders [] []]).
Proof.
  intros Hparse Hfound.
  destruct (order_schema_fields _ _ Hparse) as (u & p & q & -> & Hq).
  simpl in Hfound.
  rewrite (post_orders_created req d u p q product others Hparse Hfound).
  eexists. eexists. eexists. split; [reflexivity|].
  unfold run, get_orders, bind, sql. simpl store.
  rewrite select_all. simpl. rewrite map_app. reflexivity.
Qed.

End Orders.

Lemma post_orders_then_list_witness :
  exists order d' sent,
    run (post_orders (request_for "" two_widgets)) shop
    = (Sent {| status := 201; body_of := VObj order |}, d', sent)
    /\ run (get_orders (request_for "" VUndefined)) d'
       = (Sent {| status := 200;
                  body_of := VArr (map VObj (orders shop) ++ [VObj order]) |},
          d', [Select None Orders [] []]).
Proof.
  apply (post_orders_then_list (request_for "" two_widgets)
           (request_for "" VUndefined) shop
           [("userId", VNum 1); ("productId", VNum 1); ("quantity", VNum 2)]
           widget []); reflexivity.
Defined.

(** ** Listing users *)

Section UserList.
Context {P : Platform}.

Lemma map_m_cons {A B : Type} (f : A -> M B) (a : A) (l : list A) (w : world) :
  map_m f (a :: l) w
  = match f a w with
    | (inl e, w') => (inl e, w')
    | (inr b, w') =>
        match map_m f l w' with
        | (inl e, w'') => (inl e, w'')
        | (inr bs, w'') => (inr (b :: bs), w'')
        end
    end.
Proof.
  simpl. unfold bind. destruct (f a w) as [[e|b] w']; [reflexivity|].
  destruct (map_m f l w') as [[e|bs] w'']; reflexivity.
Qed.

Lemma parse_run (s : shape) (v : value) (w : world) :
  parse s v w
  = (match safeParse s v with
     | Success data => inr data
     | Failure issues => inl (ZodError issues)
     end, w).
Proof. unfold parse. destruct (safeParse s v); reflexivity. Qed.

Lemma parse_all_pass (s : shape) (rows : list object) (w : world) :
  forallb (passes s) rows = true ->
  exists outs,
    map_m (fun user => parse s (VObj user)) rows w = (inr outs, w)
    /\ Forall2 (fun row out => safeParse s (VObj row) = Success out) rows outs.
Proof.
  induction rows as [|row rows IH]; intros H.
  - exists []. split; [reflexivity | constructor].
  - simpl in H. apply andb_true_iff in H. destruct H as [Hrow Hrows].
    destruct (IH Hrows) as (outs & Hrun & Hall).
    unfold passes in Hrow.
    destruct (safeParse s (VObj row)) as [out|] eqn:E; [|discriminate].
    exists (out :: outs). split.
    + rewrite map_m_cons, parse_run, E, Hrun. reflexivity.
    + constructor; assumption.
Qed.

Lemma parse_all_fail (s : shape) (rows : list object) (w : world) :
  forallb (passes s) rows = false ->
  exists issues,
    map_m (fun user => parse s (VObj user)) rows w = (inl (ZodError issues), w).
Proof.
  induction rows as [|row rows IH]; intros H; [discriminate|].
  simpl in H. unfold passes in H at 1.
  destruct (safeParse s (VObj row)) as [out|issues] eqn:E.
  - simpl in H. destruct (IH H) as (issues & Hrun).
    exists issues. rewrite map_m_cons, parse_run, E, Hrun. reflexivity.
  - exists issues. rewrite map_m_cons, parse_run, E. reflexivity.
Qed.

(** What passes [getUsers] comes out as the four properties of
    [UserSchema], in its order. *)
Lemma getUsers_output (row out : object) :
  safeParse getUsers (VObj row) = Success out -> out = user_view row.
Proof.
  unfold safeParse, getUsers, field_issues, field_output, user_view. simpl.
  destruct (lookup "id" row) as [| | |i| | |]; try discriminate.
  simpl. destruct (PrimFloat.is_nan i); try discriminate.
  destruct (lookup "name" row) as [| | | |n| |]; try discriminate.
  destruct (lookup "email" row) as [| | | |e| |]; try discriminate.
  destruct (lookup "password" row) as [| | | |p| |]; try discriminate.
  simpl. intros H. injection H as <-. reflexivity.
Qed.

Lemma getUsers_outputs (rows outs : list object) :
  Forall2 (fun row out => safeParse getUsers (VObj row) = Success out) rows outs ->
  map VObj outs = map (fun row => VObj (user_view row)) rows.
Proof.
  induction 1 as [|row out rows outs Hrow _ IH]; simpl.
  - reflexivity.
  - rewrite (getUsers_output _ _ Hrow), IH. reflexivity.
Qed.

(** X5: when every stored user passes the schema GET /users applies,
    the answer is 200 with, for each user in table order, the
    properties id, name, email and password of the row, any other
    column left out; the store is as before. *)
Theorem get_users_lists_users (req : request) (d : db) :
  forallb (passes getUsers) (users d) = true ->
  run (get_users req) d
  = (Sent {| status := 200;
             body_of := VArr (map (fun row => VObj (user_view row)) (users d)) |},
     d, [Select None Users [] []]).
Proof.
  intros Hall. unfold run, get_users.
  unfold bind at 1. unfold sql. simpl store. rewrite select_all.
  cbn [rows_of]. simpl issued. change ([] ++ [Select None Users [] []])
    with [Select None Users [] []].
  destruct (parse_all_pass getUsers (users d)
              {| store := d; issued := [Select None Users [] []] |} Hall)
    as (outs & Hrun & Houts).
  unfold bind. rewrite Hrun. simpl.
  rewrite (getUsers_outputs _ _ Houts). reflexivity.
Qed.

(** X6: when some stored user does not pass that schema, GET /users
    sends no answer: it ends in the ZodError that parse throws, after
    the one SELECT, with the store as before. *)
Theorem get_users_crashes_on_bad_row (req : request) (d : db) :
  forallb (passes getUsers) (users d) = false ->
  exists issues,
    run (get_users req) d
    = (Uncaught (ZodError issues), d, [Select None Users [] []]).
Proof.
  intros Hbad. unfold run, get_users.
  unfold bind at 1. unfold sql. simpl store. rewrite select_all.
  cbn [rows_of]. simpl issued. change ([] ++ [Select None Users [] []])
    with [Select None Users [] []].
  destruct (parse_all_fail getUsers (users d)
              {| store := d; issued := [Select None Users [] []] |} Hbad)
    as (issues & Hrun).
  exists issues. unfold bind. rewrite Hrun. reflexivity.
Qed.

End UserList.

Lemma get_users_lists_users_witness :
  run (get_users (request_for "" VUndefined)) (shop_with [ann; dora])
  = (Sent {| status := 200;
             body_of := VArr (map (fun row => VObj (user_view row)) [ann; dora]) |},
     shop_with [ann; dora], [Select None Users [] []]).
Proof.
  apply (get_users_lists_users (request_for "" VUndefined) (shop_with [ann; dora])).
  reflexivity.
Defined.

Lemma get_users_crashes_on_bad_row_witness :
  exists issues,
    run (get_users (request_for "" VUndefined)) (shop_with [ann; carl; dora])
    = (Uncaught (ZodError issues), shop_with [ann; carl; dora],
       [Select None Users [] []]).
Proof.
  apply (get_users_crashes_on_bad_row (request_for "" VUndefined)
           (shop_with [ann; carl; dora])).
  reflexivity.
Defined.

(** ** What the reading routes send and leave *)

Section Reads.
Context {P : Platform}.

Lemma parse_all_world (s : shape) (rows : list object) (w : world) :
  snd (map_m (fun user => parse s (VObj user)) rows w) = w.
Proof.
  destruct (forallb (passes s) rows) eqn:H.
  - destruct (parse_all_pass s rows w H) as (outs & -> & _). reflexivity.
  - destruct (parse_all_fail s rows w H) as (issues & ->). reflexivity.
Qed.

Ltac after_select :=
  unfold try_catch, bind, sql; simpl store;
  match goal with
  | |- context [exec (Select ?c ?t ?cs ?vs) ?d] =>
      let Hs := fresh "Hs" in
      pose proof (select_keeps_store c t cs vs d) as Hs;
      destruct (exec (Select c t cs vs) d) as [[?e|?rows] ?d1];
      simpl in Hs; subst
  end.

(** X7: the six reading routes (GET /products, /products/:id, /users,
    /users/:id, /orders, /orders/:id) leave the store exactly as they
    found it, whatever the request and whether they answer or end in an
    exception. *)
Theorem reads_keep_store (req : request) (d : db) :
  snd (fst (run (get_products req) d)) = d
  /\ snd (fst (run (get_products_id req) d)) = d
  /\ snd (fst (run (get_users req) d)) = d
  /\ snd (fst (run (get_users_id req) d)) = d
  /\ snd (fst (run (get_orders req) d)) = d
  /\ snd (fst (run (get_orders_id req) d)) = d.
Proof.
  refine (conj _ (conj _ (conj _ (conj _ (conj _ _))))).
  - unfold run, get_products.
    destruct (truthy (lookup "name" (query req)));
      destruct (truthy (lookup "about" (query req)));
      destruct (truthy (lookup "price" (query req)));
      cbn -[exec]; after_select; reflexivity.
  - unfold run, get_products_id. after_select; [reflexivity|].
    destruct rows as [|product rows]; [reflexivity|]. simpl.
    destruct (js_gt (lookup "length" product) (VNum 0)); reflexivity.
  - unfold run, get_users. after_select; [reflexivity|].
    pose proof (parse_all_world getUsers rows
                  {| store := d; issued := [] ++ [Select None Users [] []] |}) as Hw.
    destruct (map_m (fun user => parse getUsers (VObj user)) rows _) as [[e|outs] w].
    + simpl in Hw. subst w. reflexivity.
    + simpl in Hw. subst w. reflexivity.
  - unfold run, get_users_id. after_select; [reflexivity|].
    destruct rows; reflexivity.
  - unfold run, get_orders. after_select; reflexivity.
  - unfold run, get_orders_id. after_select; [reflexivity|].
    destruct rows; reflexivity.
Qed.

(** X8: GET /products sends one SELECT on products; its placeholders
    are numbered 1, 2, ... in the order of the bound values, and each
    column is paired with the value of its own filter: name, about,
    price, for those whose value in the query is truthy. *)
Theorem get_products_placeholders (req : request) (d : db) :
  exists conditions values,
    snd (run (get_products req) d) = [Select None Products conditions values]
    /\ map snd conditions = seq 1 (List.length values)
    /\ combine (map fst conditions) values = truthy_predicates (query req).
Proof.
  unfold run, get_products, truthy_predicates, predicate_if.
  destruct (truthy (lookup "name" (query req)));
    destruct (truthy (lookup "about" (query req)));
    destruct (truthy (lookup "price" (query req)));
    cbn -[exec]; after_select; eexists; eexists; repeat split.
Qed.

End Reads.

(** ** Deleting, once more *)

Section DeleteMore.
Context {P : Platform}.

(** X9: DELETE /orders/:id on an identifier some order has answers 200
    with the first such order as it was stored and takes every order of
    that identifier out, the other orders staying in their order and
    the products and users untouched; the same request again answers
    404 "Order not found" and changes nothing. *)
Theorem delete_orders_id_twice (req : request) (d : db)
    (order : object) (others : list object) :
  filter (has_id (VStr (params_id req))) (orders d) = order :: others ->
  exists d1,
    run (delete_orders_id req) d
    = (Sent {| status := 200; body_of := VObj order |}, d1,
       [Delete Orders (VStr (params_id req))])
    /\ orders d1
       = filter (fun r => negb (has_id (VStr (params_id req)) r)) (orders d)
    /\ products d1 = products d
    /\ users d1 = users d
    /\ run (delete_orders_id req) d1
       = (Sent {| status := 404; body_of := msg "Order not found" |}, d1,
          [Delete Orders (VStr (params_id req))]).
Proof.
  intros Hfound. rewrite (delete_orders_id_found _ _ _ _ Hfound).
  eexists. split; [reflexivity|]. repeat split.
  unfold run, delete_orders_id, bind, sql, exec. simpl.
  rewrite nothing_left. simpl.
  rewrite (keep_unmatched _ _ (nothing_left _ _)). reflexivity.
Qed.

(** X10: no delete cascades.  DELETE /users/:id leaves products and
    orders as they are, DELETE /products/:id leaves users and orders,
    DELETE /orders/:id leaves products and users; in its own table each
    keeps exactly the rows whose id does not match, in their order. *)
Theorem deletes_do_not_cascade (req : request) (d : db) :
  let unmatched := filter (fun r => negb (has_id (VStr (params_id req)) r)) in
  snd (fst (run (delete_users_id req) d)) = set_rows Users (unmatched (users d)) d
  /\ snd (fst (run (delete_products_id req) d))
     = set_rows Products (unmatched (products d)) d
  /\ snd (fst (run (delete_orders_id req) d))
     = set_rows Orders (unmatched (orders d)) d.
Proof.
  refine (conj _ (conj _ _)).
  - unfold run, delete_users_id, bind, sql, exec. simpl.
    destruct (filter (has_id (VStr (params_id req))) (users d)); reflexivity.
  - unfold run, delete_products_id, bind, sql, exec. simpl.
    destruct (filter (has_id (VStr (params_id req))) (products d)) as [|product rows];
      [reflexivity|].
    simpl. destruct (js_gt (lookup "length" product) (VNum 0)); reflexivity.
  - unfold run, delete_orders_id, bind, sql, exec. simpl.
    destruct (filter (has_id (VStr (params_id req))) (orders d)); reflexivity.
Qed.

End DeleteMore.

Lemma delete_orders_id_twice_witness :
  exists d1,
    run (delete_orders_id (request_for "1" VUndefined)) shop_with_order
    = (Sent {| status := 200; body_of := VObj first_order |}, d1,
       [Delete Orders (VStr "1")])
    /\ orders d1
       = filter (fun r => negb (has_id (VStr "1") r)) (orders shop_with_order)
    /\ products d1 = products shop_with_order
    /\ users d1 = users shop_with_order
    /\ run (delete_orders_id (request_for "1" VUndefined)) d1
       = (Sent {| status := 404; body_of := msg "Order not found" |}, d1,
          [Delete Orders (VStr "1")]).
Proof.
  apply (delete_orders_id_twice (request_for "1" VUndefined) shop_with_order
           first_order []).
  reflexivity.
Defined.

(** ** Updating a row that exists *)

Section UpdateMore.
Context {P : Platform}.

Lemma lookup_assign_same (k : string) (v : value) (o : object) :
  lookup k (assign k v o) = v.
Proof.
  induction o as [|[k' v'] o IH]; simpl.
  - rewrite String.eqb_refl. reflexivity.
  - destruct (String.eqb k k') eqn:E; simpl.
    + rewrite String.eqb_refl. reflexivity.
    + rewrite E. exact IH.
Qed.

Lemma lookup_assign_other (k k' : string) (v : value) (o : object) :
  k' <> k -> lookup k' (assign k v o) = lookup k' o.
Proof.
  intros Hne. apply String.eqb_neq in Hne.
  induction o as [|[k0 v0] o IH]; simpl.
  - rewrite Hne. reflexivity.
  - destruct (String.eqb k k0) eqn:E; simpl.
    + apply String.eqb_eq in E. subst k0. rewrite Hne. reflexivity.
    + destruct (String.eqb k' k0); [reflexivity | exact IH].
Qed.






End UpdateMore.



(** ** Partial update of an order *)

Section OrderPatch.
Context {P : Platform}.

Lemma has_key_assign (k' k : string) (v : value) (o : object) :
  has_key k' (assign k v o) = has_key k' o || String.eqb k' k.
Proof.
  induction o as [|[k0 v0] o IH]; simpl.
  - rewrite orb_false_r. reflexivity.
  - destruct (String.eqb k k0) eqn:E; simpl.
    + apply String.eqb_eq in E. subst k0.
      destruct (String.eqb k' k), (has_key k' o); reflexivity.
    + rewrite IH.
      destruct (String.eqb k' k0), (has_key k' o), (String.eqb k' k); reflexivity.
Qed.

Lemma assign_keeps_keys (k : string) (v : value) (o : object) :
  has_key k o = true -> object_keys (assign k v o) = object_keys o.
Proof.
  unfold object_keys.
  induction o as [|[k0 v0] o IH]; simpl; [discriminate|].
  destruct (String.eqb k k0) eqn:E; simpl.
  - intros _. apply String.eqb_eq in E. subst k0. reflexivity.
  - intros H. rewrite (IH H). reflexivity.
Qed.

(** What passes [UpdateOrderSchema] holds, for each of its three keys,
    the value the body has for it. *)
Lemma update_order_data (fields data : object) :
  safeParse UpdateOrderSchema (VObj fields) = Success data ->
  lookup "userId" data = lookup "userId" fields
  /\ lookup "productId" data = lookup "productId" fields
  /\ lookup "quantity" data = lookup "quantity" fields.
Proof.
  unfold safeParse, UpdateOrderSchema, field_issues, field_output. simpl.
  destruct (lookup "userId" fields) as [| | |u| | |]; try discriminate;
    simpl; try (destruct (PrimFloat.is_nan u); try discriminate);
    (destruct (lookup "productId" fields) as [| | |p| | |]; try discriminate;
     simpl; try (destruct (PrimFloat.is_nan p); try discriminate);
     (destruct (lookup "quantity" fields) as [| | |q| | |]; try discriminate;
      simpl; try (destruct (PrimFloat.is_nan q); try discriminate;
                  destruct (PrimFloat.leb q 0); try discriminate);
      destruct (has_key "userId" fields), (has_key "productId" fields),
        (has_key "quantity" fields);
      simpl; intros H; injection H as <-; repeat split)).
Qed.

(** X13: on an orders table whose rows carry the columns userId,
    productId and quantity under these very names, the ones PATCH
    quotes (not the table POST /orders fills, whose names the datastore
    reads in lower case), PATCH /orders/:id with a valid body that
    holds the three, on an identifier some order has, answers 200 with
    that order in which these three columns are the ones of the body
    and every other column is as it was stored: the total is not
    computed again and the update time is not moved. *)
Theorem patch_orders_id_keeps_total (req : request) (d : db)
    (data order : object) (others : list object) :
  forallb (fun r => has_key "userId" r && has_key "productId" r
                    && has_key "quantity" r) (orders d) = true ->
  safeParse UpdateOrderSchema (body req) = Success data ->
  is_undefined (lookup "userId" data) = false ->
  is_undefined (lookup "productId" data) = false ->
  is_undefined (lookup "quantity" data) = false ->
  filter (has_id (VStr (params_id req))) (orders d) = order :: others ->
  exists order' d' sent,
    run (patch_orders_id req) d
    = (Sent {| status := 200; body_of := VObj order' |}, d', sent)
    /\ lookup "userId" order' = lookup "userId" data
    /\ lookup "productId" order' = lookup "productId" data
    /\ lookup "quantity" order' = lookup "quantity" data
    /\ (forall k, k <> "userId" -> k <> "productId" -> k <> "quantity" ->
                  lookup k order' = lookup k order)
    /\ object_keys order' = object_keys order
    /\ In order' (orders d').
Proof.
  intros Hcols Hparse Hu Hp Hq Hfound.
  assert (Hin : In order (orders d) /\ has_id (VStr (params_id req)) order = true).
  { apply filter_In. rewrite Hfound. left. reflexivity. }
  destruct Hin as [Hin Hid].
  pose proof (proj1 (forallb_forall _ _) Hcols order Hin) as Hkeys.
  apply andb_true_iff in Hkeys. destruct Hkeys as [Hkeys Kq].
  apply andb_true_iff in Hkeys. destruct Hkeys as [Ku Kp].
  unfold run, patch_orders_id. rewrite Hparse.
  unfold bind, sql, exec. simpl. rewrite Hu, Hp, Hq. simpl.
  rewrite Hfound. simpl.
  eexists. eexists. eexists. split; [reflexivity|].
  unfold apply_assignments. simpl.
  refine (conj _ (conj _ (conj _ (conj _ (conj _ _))))).
  - rewrite lookup_assign_other by discriminate.
    rewrite lookup_assign_other by discriminate.
    apply lookup_assign_same.
  - rewrite lookup_assign_other by discriminate. apply lookup_assign_same.
  - apply lookup_assign_same.
  - intros k H1 H2 H3. rewrite !lookup_assign_other by assumption. reflexivity.
  - rewrite !assign_keeps_keys; try reflexivity.
    + exact Ku.
    + rewrite has_key_assign, Kp. reflexivity.
    + rewrite !has_key_assign, Kq. reflexivity.
  - apply in_map_iff. exists order. split; [|exact Hin].
    rewrite Hid. reflexivity.
Qed.

(** X14: PATCH /orders/:id with a body that passes validation but
    lacks one of userId, productId, quantity answers nothing: the
    driver refuses the undefined value, the request ends in that error,
    and no order is changed. *)
Theorem patch_orders_id_needs_all_fields (req : request) (d : db)
    (fields data : object) :
  body req = VObj fields ->
  safeParse UpdateOrderSchema (VObj fields) = Success data ->
  existsb is_undefined
    [lookup "userId" fields; lookup "productId" fields; lookup "quantity" fields]
  = true ->
  run (patch_orders_id req) d
  = (Uncaught (PostgresError "UNDEFINED_VALUE"), d,
     [Update Orders [("userId", lookup "userId" fields);
                     ("productId", lookup "productId" fields);
                     ("quantity", lookup "quantity" fields)]
             (VStr (params_id req))]).
Proof.
  intros Hbody Hparse Hmissing.
  destruct (update_order_data _ _ Hparse) as (Hu & Hp & Hq).
  unfold run, patch_orders_id. rewrite Hbody, Hparse.
  unfold bind, sql, exec, helper. simpl. rewrite Hu, Hp, Hq.
  simpl in Hmissing. rewrite Hmissing. reflexivity.
Qed.

End OrderPatch.

Lemma patch_orders_id_keeps_total_witness :
  exists order' d' sent,
    run (patch_orders_id (request_for "1" five_for_ann)) shop_with_order
    = (Sent {| status := 200; body_of := VObj order' |}, d', sent)
    /\ lookup "userId" order' = VNum 1
    /\ lookup "productId" order' = VNum 1
    /\ lookup "quantity" order' = VNum 5
    /\ (forall k, k <> "userId" -> k <> "productId" -> k <> "quantity" ->
                  lookup k order' = lookup k first_order)
    /\ object_keys order' = object_keys first_order
    /\ In order' (orders d').
Proof.
  exact (patch_orders_id_keeps_total (request_for "1" five_for_ann) shop_with_order
           [("userId", VNum 1); ("productId", VNum 1); ("quantity", VNum 5)]
           first_order [] eq_refl eq_refl eq_refl eq_refl eq_refl eq_refl).
Defined.

Lemma patch_orders_id_needs_all_fields_witness :
  run (patch_orders_id (request_for "1" only_quantity)) shop_with_order
  = (Uncaught (PostgresError "UNDEFINED_VALUE"), shop_with_order,
     [Update Orders [("userId", VUndefined); ("productId", VUndefined);
                     ("quantity", VNum 5)] (VStr "1")]).
Proof.
  apply (patch_orders_id_needs_all_fields (request_for "1" only_quantity)
           shop_with_order [("quantity", VNum 5)] [("quantity", VNum 5)]);
    reflexivity.
Defined.

(** ** Creating and listing products *)

Section ProductsMore.
Context {P : Platform}.

Lemma get_products_unfiltered (req : request) (d : db) :
  truthy (lookup "name" (query req)) = false ->
  truthy (lookup "about" (query req)) = false ->
  truthy (lookup "price" (query req)) = false ->
  run (get_products req) d
  = (Sent {| status := 200; body_of := VArr (map VObj (products d)) |}, d,
     [Select None Products [] []]).
Proof.
  intros Hn Ha Hp. unfold run, get_products. rewrite Hn, Ha, Hp.
  cbn -[exec]. unfold try_catch, bind, sql. simpl store.
  rewrite select_all. reflexivity.
Qed.


(** X16: POST /products with a price at or below zero is refused with
    400 "Invalid request body"; nothing is sent to the datastore and
    the store is as before. *)
Theorem post_products_rejects_price (req : request) (d : db)
    (fields : object) (price : float) :
  body req = VObj fields ->
  lookup "price" fields = VNum price ->
  PrimFloat.leb price 0 = true ->
  run (post_products req) d
  = (Sent {| status := 400; body_of := msg "Invalid request body" |}, d, []).
Proof.
  intros Hbody Hprice Hle.
  assert (Hissue : exists c cs,
             parse_value (ZNumber [Positive]) (lookup "price" fields) = c :: cs).
  { rewrite Hprice. simpl. destruct (PrimFloat.is_nan price).
    - eexists. eexists. reflexivity.
    - rewrite Hle. eexists. eexists. reflexivity. }
  destruct Hissue as (c & cs & Hc).
  destruct (safeParse_issue CreateProductSchema fields "price"
              (ZNumber [Positive]) c cs)
    as (i & rest & Hfail); [simpl; auto | exact Hc |].
  unfold run, post_products. rewrite Hbody, Hfail. reflexivity.
Qed.

End ProductsMore.


Lemma post_products_rejects_price_witness :
  run (post_products (request_for "" free_gadget)) shop
  = (Sent {| status := 400; body_of := msg "Invalid request body" |}, shop, []).
Proof.
  apply (post_products_rejects_price (request_for "" free_gadget) shop
           [("name", VStr "Gadget"); ("about", VStr "thing"); ("price", VNum 0)]
           0%float); reflexivity.
Defined.

(** ** The document service *)

Section DocumentService.
Context {P : Platform} {B : Document.Bson}.

Lemma strings_only (items : list value) :
  flat_map (parse_value (ZString [])) items = [] ->
  Forall (fun v => exists text, v = VStr text) items.
Proof.
  induction items as [|v items IH]; simpl; intros H; [constructor|].
  destruct v as [| | | |text| |]; try discriminate.
  constructor; [exists text; reflexivity | exact (IH H)].
Qed.

(** What passes the create schema of products: the four properties of
    the body, the last one an array of strings. *)
Lemma document_product_data (fields data : object) :
  Document.safeParse Document.CreateProductSchema (VObj fields) = Success data ->
  exists n a p ids,
    lookup "name" fields = VStr n
    /\ lookup "about" fields = VStr a
    /\ lookup "price" fields = VNum p
    /\ lookup "categoryIds" fields = VArr ids
    /\ Forall (fun v => exists text, v = VStr text) ids
    /\ data = [("name", VStr n); ("about", VStr a); ("price", VNum p);
               ("categoryIds", VArr ids)].
Proof.
  unfold Document.safeParse, Document.CreateProductSchema,
    Document.field_issues, Document.field_output. simpl.
  destruct (lookup "name" fields) as [| | | |n| |]; try discriminate.
  destruct (lookup "about" fields) as [| | | |a| |]; try discriminate.
  destruct (lookup "price" fields) as [| | |p| | |]; try discriminate.
  simpl. destruct (PrimFloat.is_nan p); try discriminate.
  destruct (PrimFloat.leb p 0); try discriminate.
  destruct (lookup "categoryIds" fields) as [| | | | |ids|]; try discriminate.
  simpl.
  destruct (flat_map _ ids) as [|c cs] eqn:Hids; simpl; [|discriminate].
  intros H. injection H as <-.
  exists n, a, p, ids. repeat split. exact (strings_only _ Hids).
Qed.

Lemma object_ids_refuses (ids : list value) (text : string) :
  Forall (fun v => exists t, v = VStr t) ids ->
  In (VStr text) ids ->
  Document.object_id text = None ->
  exists message, Document.object_ids ids = inl message.
Proof.
  intros Hall Hin Hnone. revert Hin.
  induction Hall as [|v ids [t Hv] _ IH]; intros Hin; [destruct Hin|].
  subst v. simpl. destruct Hin as [Heq|Hin].
  - inversion Heq; subst. rewrite Hnone. eexists. reflexivity.
  - destruct (Document.object_id t); [|eexists; reflexivity].
    destruct (IH Hin) as (message & ->). eexists. reflexivity.
Qed.

(** X17: POST /products of the document service, on a valid body whose
    category identifiers the ObjectId constructor takes, answers 200
    with the generated [_id], the name, about and price of the body as
    they were sent and the converted identifiers; exactly this document
    is added at the end of the products and the categories are
    untouched. *)
Theorem document_post_products_stores (req : request) (s : Document.collections)
    (fields data : object) (ids converted : list value) :
  body req = VObj fields ->
  Document.safeParse Document.CreateProductSchema (VObj fields) = Success data ->
  lookup "categoryIds" fields = VArr ids ->
  Document.object_ids ids = inr converted ->
  let document :=
    [("_id", Document.oid (Document.generated (Document.generated_ids s)));
     ("name", lookup "name" fields); ("about", lookup "about" fields);
     ("price", lookup "price" fields); ("categoryIds", VArr converted)] in
  Document.post_products req s
  = (Document.Sent {| status := 200; body_of := VObj document |},
     {| Document.product_documents := Document.product_documents s ++ [document];
        Document.category_documents := Document.category_documents s;
        Document.generated_ids := S (Document.generated_ids s) |}).
Proof.
  intros Hbody Hparse Hids Hconv document.
  destruct (document_product_data _ _ Hparse)
    as (n & a & p & ids' & Hn & Ha & Hp & Hids' & _ & ->).
  rewrite Hids in Hids'. injection Hids' as <-.
  unfold Document.post_products. rewrite Hbody, Hparse. simpl.
  rewrite Hconv. unfold document. rewrite Hn, Ha, Hp. reflexivity.
Qed.

(** X18: POST /products of the document service, on a body that passes
    validation but names a category identifier the ObjectId constructor
    refuses, answers nothing: the request ends in the constructor's
    error and no document is added. *)
Theorem document_post_products_bad_id (req : request) (s : Document.collections)
    (fields data : object) (ids : list value) (text : string) :
  body req = VObj fields ->
  Document.safeParse Document.CreateProductSchema (VObj fields) = Success data ->
  lookup "categoryIds" fields = VArr ids ->
  In (VStr text) ids ->
  Document.object_id text = None ->
  exists message,
    Document.post_products req s = (Document.Uncaught message, s).
Proof.
  intros Hbody Hparse Hids Hin Hnone.
  destruct (document_product_data _ _ Hparse)
    as (n & a & p & ids' & Hn & Ha & Hp & Hids' & Hstrings & ->).
  rewrite Hids in Hids'. injection Hids' as <-.
  destruct (object_ids_refuses ids text Hstrings Hin Hnone) as (message & Hfail).
  exists message.
  unfold Document.post_products. rewrite Hbody, Hparse. simpl.
  rewrite Hfail. reflexivity.
Qed.

(** X19: POST /categories either answers 400 and leaves both
    collections as they are, or answers 200 with the generated [_id]
    and the name of the body, a string, and adds exactly that document
    at the end of the categories; the products are never touched. *)
Theorem document_post_categories_invariant (req : request) (s : Document.collections) :
  (exists answer,
     Document.post_categories req s
     = (Document.Sent {| status := 400; body_of := answer |}, s))
  \/ (exists fields name,
        body req = VObj fields
        /\ lookup "name" fields = VStr name
        /\ let category :=
             [("_id", Document.oid (Document.generated (Document.generated_ids s)));
              ("name", VStr name)] in
           Document.post_categories req s
           = (Document.Sent {| status := 200; body_of := VObj category |},
              {| Document.product_documents := Document.product_documents s;
                 Document.category_documents :=
                   Document.category_documents s ++ [category];
                 Document.generated_ids := S (Document.generated_ids s) |})).
Proof.
  unfold Document.post_categories.
  destruct (body req) as [| | | | |items|fields] eqn:Hbody;
    try (left; eexists; reflexivity).
  unfold Document.safeParse, Document.CreateCategorySchema,
    Document.field_issues, Document.field_output. simpl.
  destruct (lookup "name" fields) as [| | | |name| |] eqn:Hname;
    try (left; eexists; reflexivity).
  right. exists fields, name.
  split; [reflexivity|]. split; [exact Hname|]. reflexivity.
Qed.

End DocumentService.

Lemma document_post_products_stores_witness :
  let document :=
    [("_id", Document.oid "00000000000000000000000b");
     ("name", VStr "Hammer"); ("about", VStr "steel"); ("price", VNum 12.5);
     ("categoryIds", VArr [Document.oid "00000000000000000000000a"])] in
  Document.post_products (request_for "" hammer) catalogue
  = (Document.Sent {| status := 200; body_of := VObj document |},
     {| Document.product_documents := [document];
        Document.category_documents := [tools];
        Document.generated_ids := 12 |}).
Proof.
  exact (document_post_products_stores (request_for "" hammer) catalogue
           [("name", VStr "Hammer"); ("about", VStr "steel"); ("price", VNum 12.5);
            ("categoryIds", VArr [VStr "00000000000000000000000A"])]
           [("name", VStr "Hammer"); ("about", VStr "steel"); ("price", VNum 12.5);
            ("categoryIds", VArr [VStr "00000000000000000000000A"])]
           [VStr "00000000000000000000000A"]
           [Document.oid "00000000000000000000000a"]
           eq_refl eq_refl eq_refl eq_refl).
Defined.

Lemma document_post_products_bad_id_witness :
  exists message,
    Document.post_products (request_for "" hammer_of_shoes) catalogue
    = (Document.Uncaught message, catalogue).
Proof.
  apply (document_post_products_bad_id (request_for "" hammer_of_shoes) catalogue
           [("name", VStr "Hammer"); ("about", VStr "steel"); ("price", VNum 12.5);
            ("categoryIds", VArr [VStr "shoes"])]
           [("name", VStr "Hammer"); ("about", VStr "steel"); ("price", VNum 12.5);
            ("categoryIds", VArr [VStr "shoes"])]
           [VStr "shoes"] "shoes"); try reflexivity.
  left. reflexivity.
Defined.

Section DocumentJoin.
Context {P : Platform} {B : Document.Bson}.

Lemma filter_everything {A : Type} (l : list A) : filter (fun _ => true) l = l.
Proof. induction l as [|a l IH]; simpl; congruence. Qed.

Lemma filter_nothing {A : Type} (f : A -> bool) (l : list A) :
  existsb f l = false -> filter f l = [].
Proof.
  induction l as [|a l IH]; simpl; [reflexivity|].
  destruct (f a); simpl; [discriminate | exact IH].
Qed.

Lemma same_oid (hex : string) :
  Document.same_value (Document.oid hex) (Document.oid hex) = true.
Proof. simpl. rewrite String.eqb_refl. reflexivity. Qed.

(** X20: GET /products of the document service answers 200 with one
    entry for each stored product, in collection order; an entry is the
    product with every property other than categories as it is stored,
    and under categories the stored categories whose [_id] is among the
    categoryIds of the product, none when no stored category has such
    an [_id]; both collections are left as they are. *)
Theorem document_get_products_joins (req : request) (s : Document.collections) :
  exists result,
    Document.get_products req s
    = (Document.Sent {| status := 200; body_of := VArr (map VObj result) |}, s)
    /\ Forall2
         (fun document entry =>
            (forall k, k <> "categories" -> lookup k entry = lookup k document)
            /\ lookup "categories" entry
               = VArr (map VObj
                         (filter (fun category =>
                                    Document.joins (lookup "categoryIds" document)
                                                   (lookup "_id" category))
                                 (Document.category_documents s))))
         (Document.product_documents s) result.
Proof.
  unfold Document.get_products. rewrite filter_everything.
  eexists. split; [reflexivity|].
  induction (Document.product_documents s) as [|document documents IH]; simpl.
  - constructor.
  - constructor; [|exact IH]. unfold Document.lookup_stage. split.
    + intros k Hk. apply lookup_assign_other. exact Hk.
    + apply lookup_assign_same.
Qed.

(** X21: a category created by POST /categories and then named, by the
    digits of its [_id], in the categoryIds of a POST /products shows
    up joined to that product in GET /products: the last entry is the
    product as POST /products answered it, with categories holding
    exactly the category as POST /categories answered it.  This needs
    the driver to read back the digits of an identifier it generated,
    and the generated identifier not to be the [_id] of a category that
    was already stored. *)
Theorem document_category_then_product (reqc reqp reqg : request)
    (s : Document.collections) (cfields pfields data : object) (cname : string) :
  let hex := Document.generated (Document.generated_ids s) in
  body reqc = VObj cfields ->
  lookup "name" cfields = VStr cname ->
  body reqp = VObj pfields ->
  Document.safeParse Document.CreateProductSchema (VObj pfields) = Success data ->
  lookup "categoryIds" pfields = VArr [VStr hex] ->
  Document.object_id hex = Some hex ->
  existsb (fun category =>
             Document.same_value (Document.oid hex) (lookup "_id" category))
          (Document.category_documents s) = false ->
  exists s1 s2 category product earlier,
    Document.post_categories reqc s
    = (Document.Sent {| status := 200; body_of := VObj category |}, s1)
    /\ Document.post_products reqp s1
       = (Document.Sent {| status := 200; body_of := VObj product |}, s2)
    /\ Document.get_products reqg s2
       = (Document.Sent
            {| status := 200;
               body_of := VArr (earlier
                                ++ [VObj (product
                                          ++ [("categories", VArr [VObj category])])]) |},
          s2).
Proof.
  intros hex Hcbody Hcname Hpbody Hparse Hids Hround Hfresh.
  destruct (document_product_data _ _ Hparse)
    as (n & a & p & ids & Hn & Ha & Hp & Hids' & _ & ->).
  rewrite Hids in Hids'. injection Hids' as <-.
  assert (Hnone :
            filter (fun f => Document.joins (VArr [Document.oid hex]) (lookup "_id" f))
                   (Document.category_documents s) = []).
  { apply filter_nothing.
    transitivity (existsb (fun category =>
                             Document.same_value (Document.oid hex)
                                                 (lookup "_id" category))
                          (Document.category_documents s)); [|exact Hfresh].
    generalize (Document.category_documents s) as l.
    induction l as [|c l IH]; cbn [existsb]; [reflexivity|].
    rewrite IH. unfold Document.joins. cbn [existsb].
    rewrite orb_false_r. reflexivity. }
  eexists. eexists.
  exists [("_id", Document.oid hex); ("name", VStr cname)].
  exists [("_id", Document.oid (Document.generated (S (Document.generated_ids s))));
          ("name", VStr n); ("about", VStr a); ("price", VNum p);
          ("categoryIds", VArr [Document.oid hex])].
  eexists.
  split; [|split].
  - unfold Document.post_categories. rewrite Hcbody.
    unfold Document.safeParse, Document.CreateCategorySchema,
      Document.field_issues, Document.field_output. simpl.
    rewrite Hcname. reflexivity.
  - unfold Document.post_products. rewrite Hpbody, Hparse. simpl.
    fold hex. rewrite Hround. reflexivity.
  - unfold Document.get_products.
    cbn [Document.product_documents Document.category_documents].
    rewrite filter_everything, map_app, map_app.
    cbn [map]. unfold Document.lookup_stage at 2.
    cbn [lookup String.eqb Ascii.eqb Bool.eqb].
    rewrite filter_app, Hnone.
    cbn [filter lookup String.eqb Ascii.eqb Bool.eqb app Document.joins existsb].
    rewrite same_oid. reflexivity.
Qed.

End DocumentJoin.

Lemma document_category_then_product_witness :
  exists s1 s2 category product earlier,
    Document.post_categories (request_for "" garden) catalogue
    = (Document.Sent {| status := 200; body_of := VObj category |}, s1)
    /\ Document.post_products (request_for "" rake) s1
       = (Document.Sent {| status := 200; body_of := VObj product |}, s2)
    /\ Document.get_products (request_for "" VUndefined) s2
       = (Document.Sent
            {| status := 200;
               body_of := VArr (earlier
                                ++ [VObj (product
                                          ++ [("categories", VArr [VObj category])])]) |},
          s2).
Proof.
  exact (document_category_then_product
           (request_for "" garden) (request_for "" rake) (request_for "" VUndefined)
           catalogue [("name", VStr "Garden")]
           [("name", VStr "Rake"); ("about", VStr "for leaves"); ("price", VNum 8);
            ("categoryIds", VArr [VStr "00000000000000000000000b"])]
           [("name", VStr "Rake"); ("about", VStr "for leaves"); ("price", VNum 8);
            ("categoryIds", VArr [VStr "00000000000000000000000b"])]
           "Garden" eq_refl eq_refl eq_refl eq_refl eq_refl eq_refl eq_refl).
Defined.

(** ** The client script against the service *)

Section Client.
Context {P : Platform}.

Lemma json_image_rows (rows : list object) :
  json_image (VArr (map VObj rows))
  = Some (VArr (map (fun row => VObj (json_fields row)) rows)).
Proof.
  simpl. do 2 f_equal.
  induction rows as [|row rows IH]; simpl; [reflexivity|].
  rewrite IH. reflexivity.
Qed.

(** X22: run against the service, whatever the store holds, f2p.js
    prints with console.log the list of all product rows in table
    order, each as JSON carries it, and prints no problem line. *)
Theorem f2p_logs_products (d : db) :
  exists r,
    run (get_products f2p_request) d = (Sent r, d, [Select None Products [] []])
    /\ f2p (delivered r)
       = Log (VArr (map (fun row => VObj (json_fields row)) (products d))).
Proof.
  rewrite (get_products_unfiltered f2p_request d eq_refl eq_refl eq_refl).
  eexists. split; [reflexivity|].
  unfold delivered, f2p. cbn [status body_of ok Nat.leb andb].
  rewrite json_image_rows. reflexivity.
Qed.

End Client.

(** X23: f2p.js prints the data it fetched exactly when fetch was
    fulfilled with a status from 200 to 299 and a body that is JSON;
    a rejection, any other status and a body that is not JSON all end
    in the problem line. *)
Theorem f2p_logs_only_ok (fetched : settled) (data : value) :
  f2p fetched = Log data
  <-> exists status,
        fetched = Fulfilled status (Some data)
        /\ 200 <= status /\ status <= 299.
Proof.
  split.
  - destruct fetched as [status [payload|]|reason]; simpl;
      try discriminate.
    + destruct (ok status) eqn:Hok; [|discriminate].
      intros H. injection H as <-. exists status.
      unfold ok in Hok. apply andb_true_iff in Hok. destruct Hok as [H1 H2].
      split; [reflexivity|].
      split; [apply Nat.leb_le, H1 | apply Nat.leb_le, H2].
    + destruct (ok status); discriminate.
  - intros (status & -> & H1 & H2). simpl. unfold ok.
    apply Nat.leb_le in H1. apply Nat.leb_le in H2.
    rewrite H1, H2. reflexivity.
Qed.

Lemma f2p_logs_only_ok_witness :
  f2p (Fulfilled 200 (Some (VArr []))) = Log (VArr []).
Proof.
  apply (proj2 (f2p_logs_only_ok (Fulfilled 200 (Some (VArr []))) (VArr []))).
  exists 200. split; [reflexivity|]. split.
  - apply Nat.leb_le. reflexivity.
  - apply Nat.leb_le. reflexivity.
Defined.
